(** * helm2bundle: the archive extractor and the descriptor builder

    A shallow embedding of [src/helm2bundle.go]: [getTarValues] with its
    scanning loop, [parseChart] and [NewSpec], together with the parts of the
    Go libraries they call ([path.Match], the sequential [tar.Reader],
    [ioutil.ReadAll]).  Go strings are byte sequences and are modelled by
    [string]; a Go result pair [(v, err)] is modelled by the sum [Result]. *)

From Stdlib Require Import Ascii String List Bool Arith Lia.
From stdpp Require Import base option list strings gmap.

Local Open Scope string_scope.
Local Open Scope list_scope.

(* stdpp freezes [String.append]; the proofs below compute with it. *)
#[local] Arguments String.append !s1 s2 : simpl nomatch.

(** ** Errors and fallible results *)

(** Go's [error] values met by the program.  The last constructor stands for
    the opaque errors made by the libraries ([os], [gzip], [tar], [yaml]),
    tagged with the package that made them. *)
Inductive error : Type :=
| EOF                                   (* io.EOF *)
| ErrBadPattern                         (* path.ErrBadPattern *)
| errorString (msg : string)            (* errors.New msg *)
| libError (pkg : string) (msg : string).

(** A call returning [(v, nil)] is [Ok v]; a call returning a non-nil error is
    [Err e].  The zero value Go returns next to a non-nil error is dropped:
    every caller in the program discards it. *)
Definition Result (A : Type) : Type := (A + error)%type.
Definition Ok {A : Type} (a : A) : Result A := inl a.
Definition Err {A : Type} (e : error) : Result A := inr e.

Module errors.
Definition New (msg : string) : error := errorString msg.
End errors.

(** ** [path.Match]

    The matcher of Go's standard library, for the pattern syntax the program
    uses: literal bytes and [*].  The other metacharacters ([?], [[] and the
    backslash) are outside this fragment; a chunk that holds one is refused
    with [ErrBadPattern], so that nothing is proved about them. *)
Module path.

Definition isStar (c : ascii) : bool := Ascii.eqb c "*"%char.
Definition isSlash (c : ascii) : bool := Ascii.eqb c "/"%char.
Definition isMeta (c : ascii) : bool :=
  Ascii.eqb c "?"%char || Ascii.eqb c "["%char || Ascii.eqb c "\"%char.

(** [for len(pattern) > 0 && pattern[0] == '*' { pattern = pattern[1:]; star = true }] *)
Fixpoint skipStars (star : bool) (pattern : string) : bool * string :=
  match pattern with
  | String c rest => if isStar c then skipStars true rest else (star, pattern)
  | EmptyString => (star, pattern)
  end.

(** The [Scan] loop: the chunk runs up to the next [*]. *)
Fixpoint untilStar (pattern : string) : string * string :=
  match pattern with
  | String c rest =>
      if isStar c then (EmptyString, pattern)
      else let '(chunk, rest') := untilStar rest in (String c chunk, rest')
  | EmptyString => (EmptyString, EmptyString)
  end.

Definition scanChunk (pattern : string) : bool * string * string :=
  let '(star, pattern') := skipStars false pattern in
  let '(chunk, rest) := untilStar pattern' in
  (star, chunk, rest).

(** [matchChunk chunk s]: [Ok (Some rest)] when [s] starts with the chunk
    ([ok] true, [rest] what follows it), [Ok None] when it does not.  After
    a mismatch Go keeps walking the chunk to check its syntax, without
    reading [s] any more: [failed] records that. *)
Fixpoint matchChunk (failed : bool) (chunk s : string) : Result (option string) :=
  match chunk with
  | EmptyString => Ok (if failed then None else Some s)
  | String c chunk' =>
      if isMeta c then Err ErrBadPattern
      else if failed then matchChunk true chunk' s
      else match s with
           | EmptyString => matchChunk true chunk' s
           | String d s' =>
               if Ascii.eqb c d then matchChunk false chunk' s'
               else matchChunk true chunk' s'
           end
  end.

(** The loop that lets a leading [*] swallow [i+1] bytes, never a [/]:
    [for i := 0; i < len(name) && name[i] != '/'; i++].  [last] is
    [len(pattern) == 0], the chunk being the pattern's last one. *)
Fixpoint skipLoop (chunk : string) (last : bool) (name : string)
  : Result (option string) :=
  match name with
  | EmptyString => Ok None
  | String c name' =>
      if isSlash c then Ok None
      else match matchChunk false chunk name' with
           | inr e => Err e
           | inl (Some t) =>
               if last && negb (String.eqb t EmptyString)
               then skipLoop chunk last name'
               else Ok (Some t)
           | inl None => skipLoop chunk last name'
           end
  end.

(** After a failed match, the rest of the pattern is still checked. *)
Fixpoint checkRest (fuel : nat) (pattern : string) : Result bool :=
  match fuel with
  | O => Err ErrBadPattern
  | S fuel' =>
      match pattern with
      | EmptyString => Ok false
      | _ =>
          let '(_, chunk, rest) := scanChunk pattern in
          match matchChunk false chunk EmptyString with
          | inr e => Err e
          | inl _ => checkRest fuel' rest
          end
      end
  end.

Definition hasSlash (name : string) : bool :=
  existsb isSlash (list_ascii_of_string name).

(** The [Pattern] loop.  Every turn consumes at least one byte of the
    pattern, so [S (length pattern)] turns are enough. *)
Fixpoint MatchLoop (fuel : nat) (pattern name : string) : Result bool :=
  match fuel with
  | O => Err ErrBadPattern
  | S fuel' =>
      match pattern with
      | EmptyString => Ok (String.eqb name EmptyString)
      | _ =>
          let '(star, chunk, rest) := scanChunk pattern in
          let last := String.eqb rest EmptyString in
          if star && String.eqb chunk EmptyString
          then Ok (negb (hasSlash name))
          else
            match matchChunk false chunk name with
            | inr e => Err e
            | inl first =>
                match first with
                | Some t =>
                    if String.eqb t EmptyString || negb last
                    then MatchLoop fuel' rest t
                    else if star
                         then match skipLoop chunk last name with
                              | inr e => Err e
                              | inl (Some t') => MatchLoop fuel' rest t'
                              | inl None => checkRest fuel' rest
                              end
                         else checkRest fuel' rest
                | None =>
                    if star
                    then match skipLoop chunk last name with
                         | inr e => Err e
                         | inl (Some t') => MatchLoop fuel' rest t'
                         | inl None => checkRest fuel' rest
                         end
                    else checkRest fuel' rest
                end
            end
      end
  end.

Definition Match (pattern name : string) : Result bool :=
  MatchLoop (S (String.length pattern)) pattern name.

End path.

(** ** The archive as the program reads it *)

Module tar.

(** [tar.Header]; the program looks at the member's name only. *)
Record Header : Type := { Name : string }.

(** One member as the sequential reader delivers it: the header [Next]
    returns, and what reading the member's body to its end gives (its
    bytes, or the error the stream raises on the way). *)
Record Entry : Type := { hdr : Header; body : Result string }.

End tar.

(** Reading position inside the current member: the bytes still unread, or
    the error the next read will meet. *)
Definition Cursor : Type := Result string.

Module ioutil.

(** [ioutil.ReadAll]: everything up to the end of the member; the cursor is
    left at the end, so a second call returns no bytes. *)
Definition ReadAll (source : Cursor) : Result string * Cursor :=
  match source with
  | inl data => (Ok data, Ok EmptyString)
  | inr e => (Err e, Err e)
  end.

End ioutil.

(** What [os.Open] followed by [gzip.NewReader] and [tar.NewReader] makes of
    a file: [NotGzip e] when the gzip header is refused, otherwise the members
    in stream order and the error that ends the stream ([EOF] at a clean
    end-of-archive marker, another error for a corrupt or truncated one). *)
Inductive File : Type :=
| NotGzip (e : error)
| Archive (entries : list tar.Entry) (ending : error).

(** ** The program's records *)

Module Chart.
(** [Chart] holds data that is parsed from a chart's Chart.yaml file. *)
Record t : Type := { Description : string; Name : string; Icon : string }.
(** [Chart{}] *)
Definition zero : t := {| Description := ""; Name := ""; Icon := "" |}.
End Chart.

Module TarValues.
Record t : Type :=
  { Name : string;
    Description : string;
    Icon : string;
    TarfileName : string;
    Values : string }.
End TarValues.

(** [let! x := e in k]: Go's [x, err := e; if err != nil { return ..., err }]. *)
Definition bind {A B : Type} (r : Result A) (k : A -> Result B) : Result B :=
  match r with
  | inl a => k a
  | inr e => Err e
  end.

Notation "'let!' x ':=' e 'in' k" := (bind e (fun x => k))
  (at level 10, x name, e at level 200, k at level 200).
Notation "'let!' ' p ':=' e 'in' k" := (bind e (fun x => let p := x in k))
  (at level 10, p pattern, e at level 200, k at level 200).

Section Extractor.

(** [yaml.Unmarshal(data, &c)] on a fresh [c := Chart{}]: the filled record,
    or the decoder's error. *)
Variable Unmarshal : string -> Result Chart.t.

(** [os.Open] and the two reader constructors, by file name. *)
Variable Open : string -> Result File.

(** [parseChart] parses the Chart.yaml file for data that is needed when
    creating a service bundle.  It returns the cursor too, as the caller
    goes on reading from the same reader. *)
Definition parseChart (source : Cursor) : Result Chart.t * Cursor :=
  let '(data, source') := ioutil.ReadAll source in
  (let! data := data in let! c := Unmarshal data in Ok c, source').

(** [len(values) > 0 && len(chart.Name) > 0] *)
Definition found (chart : Chart.t) (values : string) : bool :=
  (0 <? String.length values)%nat && (0 <? String.length (Chart.Name chart))%nat.

(** One turn of the [for] loop, from the header that [tr.Next()] returned
    down to the test that breaks out of it: the new [chart] and [values],
    or the error the turn returns. *)
Definition visit (e : tar.Entry) (chart : Chart.t) (values : string)
  : Result (Chart.t * string) :=
  let hdr := tar.hdr e in
  let tr : Cursor := tar.body e in
  let! chartMatch := path.Match "*/Chart.yaml" (tar.Name hdr) in
  let! valuesMatch := path.Match "*/values.yaml" (tar.Name hdr) in
  let! '(chart, tr) :=
     if chartMatch : bool
     then let '(c, tr') := parseChart tr in let! c := c in Ok (c, tr')
     else Ok (chart, tr) in
  let! values :=
     if valuesMatch : bool
     then let '(data, _) := ioutil.ReadAll tr in let! data := data in Ok data
     else Ok values in
  Ok (chart, values).

(** The [for] loop over [tr.Next()].  The result comes with the members
    whose headers were read, in order: the members after them were never
    requested from the stream. *)
Fixpoint scan (ending : error) (entries : list tar.Entry)
         (chart : Chart.t) (values : string)
  : Result (Chart.t * string) * list tar.Entry :=
  match entries with
  | [] =>
      match ending with
      | EOF => (Err (errors.New "Chart.yaml not found in archive"), [])
      | err => (Err err, [])
      end
  | e :: rest =>
      match visit e chart values with
      | inr err => (Err err, [e])
      | inl (chart', values') =>
          if found chart' values'
          then (Ok (chart', values'), [e])
          else let '(r, seen) := scan ending rest chart' values' in
               (r, e :: seen)
      end
  end.

(** [getTarValues] opens the helm chart tarball to 1) retrieve Chart.yaml so
    it can be parsed, and 2) retrieve the entire contents of values.yaml.
    Second component: the members read from the archive. *)
Definition getTarValues (filename : string)
  : Result TarValues.t * list tar.Entry :=
  match Open filename with
  | inr err => (Err err, [])
  | inl (NotGzip err) => (Err err, [])
  | inl (Archive entries ending) =>
      match scan ending entries Chart.zero "" with
      | (inr err, seen) => (Err err, seen)
      | (inl (chart, values), seen) =>
          if found chart values
          then (Ok {| TarValues.Name := Chart.Name chart;
                      TarValues.Description := Chart.Description chart;
                      TarValues.Icon := Chart.Icon chart;
                      TarValues.TarfileName := filename;
                      TarValues.Values := values |}, seen)
          else (Err (errors.New "Could not find both Chart.yaml and values.yaml"),
                seen)
      end
  end.

(** The loop goes through all of [entries] without returning and without
    breaking: the [chart] and [values] it holds after the last of them. *)
Fixpoint passes (entries : list tar.Entry) (chart : Chart.t) (values : string)
  : option (Chart.t * string) :=
  match entries with
  | [] => Some (chart, values)
  | e :: rest =>
      match visit e chart values with
      | inr _ => None
      | inl (chart', values') =>
          if found chart' values' then None else passes rest chart' values'
      end
  end.

End Extractor.

(** ** The descriptor *)

Module fmt.

(** [fmt.Sprintf] for formats made of literal bytes and [%s] verbs, with
    string operands.  A verb without operand prints as Go prints it. *)
Fixpoint Sprintf (format : string) (a : list string) : string :=
  match format with
  | String "%" (String "s" format') =>
      match a with
      | x :: a' => x +:+ Sprintf format' a'
      | [] => "%!s(MISSING)" +:+ Sprintf format' []
      end
  | String c format' => String c (Sprintf format' a)
  | EmptyString => EmptyString
  end.

End fmt.

(** The records of the bundle library that [NewSpec] fills.  Only the fields
    the program sets are listed; the library's other fields keep Go's zero
    value in every descriptor. *)
Module apb.

(** The [interface{}] values the program stores are strings. *)
Inductive any : Type := str (s : string).

Module ParameterDescriptor.
Record t : Type :=
  { Name : string;
    Title : string;
    Type_ : string;
    DisplayType : string;
    Default : any }.
End ParameterDescriptor.

Module Plan.
Record t : Type :=
  { Name : string;
    Description : string;
    Free : bool;
    Metadata : gmap string any;
    Parameters : list ParameterDescriptor.t }.
End Plan.

Module Spec.
Record t : Type :=
  { Version : string;
    Name : string;
    Description : string;
    Bindable : bool;
    Async : string;
    Metadata : gmap string any;
    Plans : list Plan.t }.
End Spec.

End apb.

(** [NewSpec] returns a pointer to a new APB that has been populated with the
    passed-in data.  The embedding returns the record the pointer refers to. *)
Definition NewSpec (v : TarValues.t) : apb.Spec.t :=
  let parameter :=
    {| apb.ParameterDescriptor.Name := "values";
       apb.ParameterDescriptor.Title := "Values";
       apb.ParameterDescriptor.Type_ := "string";
       apb.ParameterDescriptor.DisplayType := "textarea";
       apb.ParameterDescriptor.Default := apb.str (TarValues.Values v) |} in
  let plan :=
    {| apb.Plan.Name := "default";
       apb.Plan.Description :=
         fmt.Sprintf "Deploys helm chart %s" [TarValues.Name v];
       apb.Plan.Free := true;
       apb.Plan.Metadata := ∅;
       apb.Plan.Parameters := [parameter] |} in
  {| apb.Spec.Version := "1.0";
     apb.Spec.Name := fmt.Sprintf "%s-apb" [TarValues.Name v];
     apb.Spec.Description := TarValues.Description v;
     apb.Spec.Bindable := false;
     apb.Spec.Async := "optional";
     apb.Spec.Metadata :=
       <["displayName" := apb.str (fmt.Sprintf "%s (helm bundle)" [TarValues.Name v])]>
         (<["imageUrl" := apb.str (TarValues.Icon v)]> ∅);
     apb.Spec.Plans := [plan] |}.

(** ** Sample inputs

    A decoder and a file system small enough to run the program on. *)
Module Sample.

Definition fooChart : Chart.t :=
  {| Chart.Description := "bar"; Chart.Name := "foo";
     Chart.Icon := "http://x/icon.png" |}.

Definition fooYaml : string :=
  "name: foo" +:+ String "010" ("description: bar" +:+ String "010"
    ("icon: http://x/icon.png" +:+ String "010" "")).

Definition valuesYaml : string := "replicaCount: 1" +:+ String "010" "".

(** A decoder that knows three documents: the chart above, a document
    without a name, and one that is not YAML. *)
Definition Unmarshal (data : string) : Result Chart.t :=
  if String.eqb data fooYaml then Ok fooChart
  else if String.eqb data "description: anonymous"
       then Ok {| Chart.Description := "anonymous"; Chart.Name := "";
                  Chart.Icon := "" |}
       else if String.eqb data "{"
            then Err (libError "yaml" "did not find expected node content")
            else Ok Chart.zero.

Definition member (name : string) (data : string) : tar.Entry :=
  {| tar.hdr := {| tar.Name := name |}; tar.body := Ok data |}.

Definition chartMember : tar.Entry := member "mychart/Chart.yaml" fooYaml.
Definition valuesMember : tar.Entry := member "mychart/values.yaml" valuesYaml.
Definition readme : tar.Entry := member "mychart/README.md" "# mychart".

(** One file per archive, named after its members. *)
Definition Open (filename : string) : Result File :=
  if String.eqb filename "chart.tgz"
  then Ok (Archive [chartMember; valuesMember] EOF)
  else if String.eqb filename "tail.tgz"
  then Ok (Archive [readme; valuesMember; chartMember; readme; readme] EOF)
  else if String.eqb filename "chart-only.tgz"
  then Ok (Archive [chartMember] EOF)
  else if String.eqb filename "values-only.tgz"
  then Ok (Archive [valuesMember] EOF)
  else if String.eqb filename "empty.tgz"
  then Ok (Archive [] EOF)
  else if String.eqb filename "anonymous.tgz"
  then Ok (Archive [member "mychart/Chart.yaml" "description: anonymous";
                    valuesMember; readme] EOF)
  else if String.eqb filename "novalues.tgz"
  then Ok (Archive [chartMember; member "mychart/values.yaml" ""; readme] EOF)
  else if String.eqb filename "broken.tgz"
  then Ok (Archive [readme; member "mychart/Chart.yaml" "{"; valuesMember] EOF)
  else if String.eqb filename "plain.txt"
  then Ok (NotGzip (libError "gzip" "invalid header"))
  else Err (libError "os" "no such file or directory").

End Sample.

(** ** The working directory, the output files and [run] *)

(** What the program sees of its surroundings besides the archive: the files
    of the working directory, by name with their bytes, and the bytes printed
    on the standard output. *)
Record World : Type := { files : gmap string string; stdout : string }.

Definition LF : string := String "010" EmptyString.
Definition QUOTE : string := String "034" EmptyString.

Module os.

(** How the system calls can fail for reasons other than a missing file
    (permissions, a full disk, ...): the error each one answers for a file
    name, if any. *)
Record Faults : Type :=
  { stat : string -> option error;
    create : string -> option error;
    write : string -> option error }.

Definition ErrNotExist : error := libError "os" "file does not exist".

(** [os.IsNotExist] *)
Definition IsNotExist (err : error) : bool :=
  match err with
  | libError pkg msg => String.eqb pkg "os" && String.eqb msg "file does not exist"
  | _ => false
  end.

(** [os.Stat], keeping the error only: [None] is Go's [nil], the file is
    there. *)
Definition Stat (fl : Faults) (w : World) (name : string) : option error :=
  match stat fl name with
  | Some err => Some err
  | None =>
      match files w !! name with
      | Some _ => None
      | None => Some ErrNotExist
      end
  end.

(** [os.Create]: the file is made, or cut to no bytes when it is there. *)
Definition Create (fl : Faults) (name : string) (w : World) : Result World :=
  match create fl name with
  | Some err => Err err
  | None => Ok {| files := <[name := EmptyString]> (files w); stdout := stdout w |}
  end.

(** [f.Write] on the file [f] opened under [name]: the bytes go after the
    ones written so far. *)
Definition Write (fl : Faults) (name data : string) (w : World)
  : option error * World :=
  match write fl name with
  | Some err => (Some err, w)
  | None =>
      (None, {| files := <[name := default EmptyString (files w !! name) +:+ data]>
                           (files w);
                stdout := stdout w |})
  end.

End os.

(** [err.Error()] *)
Definition Error (err : error) : string :=
  match err with
  | EOF => "EOF"
  | ErrBadPattern => "syntax error in pattern"
  | errorString msg => msg
  | libError _ msg => msg
  end.

(** [fmt.Println] of one string and [fmt.Printf], on the standard output. *)
Definition Println (s : string) (w : World) : World :=
  {| files := files w; stdout := stdout w +:+ s +:+ LF |}.

Definition Printf (format : string) (a : list string) (w : World) : World :=
  {| files := files w; stdout := stdout w +:+ fmt.Sprintf format a |}.

(** [text/template], for templates made of plain text and of actions that
    print one field of the data, [{{.Field}}].  Other actions are outside
    this fragment and are refused at parse time. *)
Module template.

Inductive Node : Type :=
| TextNode (text : string)
| FieldNode (ident : string).

Definition isIdentChar (c : ascii) : bool :=
  let n := nat_of_ascii c in
  ((48 <=? n) && (n <=? 57) || (65 <=? n) && (n <=? 90)
   || (97 <=? n) && (n <=? 122) || (n =? 95))%nat.

Definition action (body : string) : Result Node :=
  match body with
  | String "." ident =>
      if negb (String.eqb ident EmptyString)
         && forallb isIdentChar (list_ascii_of_string ident)
      then Ok (FieldNode ident)
      else Err (libError "template" "unexpected action")
  | _ => Err (libError "template" "unexpected action")
  end.

(** Empty runs of text give no node. *)
Definition textNode (text : string) : list Node :=
  if String.eqb text EmptyString then [] else [TextNode text].

Fixpoint lexText (cur s : string) {struct s} : Result (list Node) :=
  match s with
  | EmptyString => Ok (textNode cur)
  | String "{" (String "{" s') =>
      let! rest := lexAction EmptyString s' in Ok (textNode cur ++ rest)
  | String c s' => lexText (cur +:+ String c EmptyString) s'
  end
with lexAction (cur s : string) {struct s} : Result (list Node) :=
  match s with
  | EmptyString => Err (libError "template" "unclosed action")
  | String "}" (String "}" s') =>
      let! node := action cur in
      let! rest := lexText EmptyString s' in Ok (node :: rest)
  | String c s' => lexAction (cur +:+ String c EmptyString) s'
  end.

(** [template.New(name).Parse(text)] *)
Definition Parse (text : string) : Result (list Node) := lexText EmptyString text.

(** The exported fields of [TarValues], by name. *)
Definition field (data : TarValues.t) (ident : string) : option string :=
  if String.eqb ident "Name" then Some (TarValues.Name data)
  else if String.eqb ident "Description" then Some (TarValues.Description data)
  else if String.eqb ident "Icon" then Some (TarValues.Icon data)
  else if String.eqb ident "TarfileName" then Some (TarValues.TarfileName data)
  else if String.eqb ident "Values" then Some (TarValues.Values data)
  else None.

(** [t.Execute(f, data)]: every node is one write on the file, in order; a
    string field is printed as it is. *)
Fixpoint Execute (fl : os.Faults) (t : list Node) (f : string)
         (data : TarValues.t) (w : World) : option error * World :=
  match t with
  | [] => (None, w)
  | TextNode text :: t' =>
      match os.Write fl f text w with
      | (Some err, w') => (Some err, w')
      | (None, w') => Execute fl t' f data w'
      end
  | FieldNode ident :: t' =>
      match field data ident with
      | None => (Some (libError "template" "can't evaluate field"), w)
      | Some s =>
          match os.Write fl f s w with
          | (Some err, w') => (Some err, w')
          | (None, w') => Execute fl t' f data w'
          end
      end
  end.

End template.

Definition dockerfileTemplate : string :=
  "FROM ansibleplaybookbundle/helm-bundle-base" +:+ LF +:+ LF +:+
  "LABEL " +:+ QUOTE +:+ "com.redhat.apb.spec" +:+ QUOTE +:+ "=\" +:+ LF +:+
  QUOTE +:+ QUOTE +:+ LF +:+ LF +:+
  "COPY {{.TarfileName}} /opt/chart.tgz" +:+ LF +:+ LF +:+
  "ENTRYPOINT [" +:+ QUOTE +:+ "entrypoint.sh" +:+ QUOTE +:+ "]" +:+ LF.

Definition apbYml : string := "apb.yml".
Definition dockerfile : string := "Dockerfile".

Section Program.

Variable Unmarshal : string -> Result Chart.t.
Variable Open : string -> Result File.

(** [yaml.Marshal] of a descriptor. *)
Variable Marshal : apb.Spec.t -> Result string.

Variable fl : os.Faults.

(** The [range] loop of [fileExists]. *)
Fixpoint fileExistsIn (names : list string) (w : World) : Result bool :=
  match names with
  | [] => Ok false
  | filename :: rest =>
      match os.Stat fl w filename with
      | None => Ok true
      | Some err =>
          if negb (os.IsNotExist err) then Err err else fileExistsIn rest w
      end
  end.

(** [fileExists] returns true if either apb.yml or Dockerfile exists in the
    working directory, else false. *)
Definition fileExists (w : World) : Result bool :=
  fileExistsIn [apbYml; dockerfile] w.

(** [writeApbYaml] creates a new file named "apb.yml" in the current working
    directory that can be used to build a service bundle. *)
Definition writeApbYaml (v : TarValues.t) (w : World) : option error * World :=
  let apb := NewSpec v in
  match Marshal apb with
  | inr err => (Some err, w)
  | inl data =>
      match os.Create fl apbYml w with
      | inr err => (Some err, w)
      | inl w' => os.Write fl apbYml data w'
      end
  end.

(** [writeDockerfile] creates a new file named "Dockerfile" in the current
    working directory that can be used to build a service bundle. *)
Definition writeDockerfile (v : TarValues.t) (w : World) : option error * World :=
  match template.Parse dockerfileTemplate with
  | inr err => (Some err, w)
  | inl t =>
      match os.Create fl dockerfile w with
      | inr err => (Some err, w)
      | inl w' => template.Execute fl t dockerfile v w'
      end
  end.

(** [fmt.Println(err.Error()); fmt.Println(msg); os.Exit(1)] *)
Definition fail (err : error) (msg : string) (w : World) : World * option nat :=
  (Println msg (Println (Error err) w), Some 1).

(** [run] does all of the real work.  [force] indicates if existing files
    should be overwritten, and [filename] is the name of the chart file in the
    working directory.  The result is the world it leaves and the status it
    exits with, [None] when it returns. *)
Definition run (force : bool) (filename : string) (w : World)
  : World * option nat :=
  let work (w : World) :=
    match fst (getTarValues Unmarshal Open filename) with
    | inr err => fail err "could not get values from helm chart" w
    | inl values =>
        match writeApbYaml values w with
        | (Some err, w) => fail err "could not render template" w
        | (None, w) =>
            match writeDockerfile values w with
            | (Some err, w) => fail err "could not render template" w
            | (None, w) => (w, None)
            end
        end
    end in
  if Bool.eqb force false
  then match fileExists w with
       | inr err => fail err "could not get values from helm chart" w
       | inl true =>
           (Printf ("use --force to overwrite existing %s and/or %s" +:+ LF)
                   [dockerfile; apbYml] w, Some 1)
       | inl false => work w
       end
  else work w.

End Program.

(** Inputs to run the program on. *)
Module Fixture.

Definition noFaults : os.Faults :=
  {| os.stat := fun _ => None; os.create := fun _ => None;
     os.write := fun _ => None |}.

Definition denied : error := libError "os" "permission denied".

(** Looking at apb.yml is not allowed. *)
Definition statDenied : os.Faults :=
  {| os.stat := fun name => if String.eqb name "apb.yml" then Some denied else None;
     os.create := fun _ => None; os.write := fun _ => None |}.

(** The directory is read-only. *)
Definition readOnly : os.Faults :=
  {| os.stat := fun _ => None; os.create := fun _ => Some denied;
     os.write := fun _ => Some denied |}.

Definition Marshal (spec : apb.Spec.t) : Result string :=
  Ok ("name: " +:+ apb.Spec.Name spec +:+ LF).

Definition noMarshal (spec : apb.Spec.t) : Result string :=
  Err (libError "yaml" "cannot marshal").

Definition emptyDir : World := {| files := ∅; stdout := "" |}.

Definition usedDir : World :=
  {| files := <["Dockerfile" := "FROM scratch"]> (<["notes.txt" := "keep"]> ∅);
     stdout := "" |}.

Definition fooValues : TarValues.t :=
  {| TarValues.Name := "foo"; TarValues.Description := "bar";
     TarValues.Icon := "http://x/icon.png"; TarValues.TarfileName := "chart.tgz";
     TarValues.Values := Sample.valuesYaml |}.

Definition truncated : error := libError "tar" "unexpected EOF".

(** Archives that end badly or cannot be read through. *)
Definition Open (filename : string) : Result File :=
  if String.eqb filename "cut.tgz"
  then Ok (Archive [Sample.readme; Sample.chartMember] truncated)
  else if String.eqb filename "unreadable.tgz"
  then Ok (Archive [Sample.chartMember;
                    {| tar.hdr := {| tar.Name := "mychart/values.yaml" |};
                       tar.body := Err truncated |};
                    Sample.readme] EOF)
  else if String.eqb filename "plain.tgz"
  then Ok (Archive [Sample.chartMember; Sample.valuesMember] EOF)
  else if String.eqb filename "padded.tgz"
  then Ok (Archive [Sample.chartMember; Sample.readme; Sample.valuesMember] EOF)
  else if String.eqb filename "swapped.tgz"
  then Ok (Archive [Sample.valuesMember; Sample.readme; Sample.chartMember] EOF)
  else Sample.Open filename.

End Fixture.

(** ** The descriptor as Go allocates it *)

(** [NewSpec] with its allocations written out.  A Go map is a reference: a
    record holds the address of its map, and [NewSpec] returns the address of
    the descriptor.  One call makes three objects: the plan's empty map
    ([make]), the descriptor's metadata map (the map literal) and the
    descriptor itself ([&spec]).  The heap is the list of the objects made so
    far; an object's address is its rank. *)
Module heap.

Module Plan.
Record t : Type :=
  { Name : string;
    Description : string;
    Free : bool;
    Metadata : nat;
    Parameters : list apb.ParameterDescriptor.t }.
End Plan.

Module Spec.
Record t : Type :=
  { Version : string;
    Name : string;
    Description : string;
    Bindable : bool;
    Async : string;
    Metadata : nat;
    Plans : list Plan.t }.
End Spec.

Inductive Object : Type :=
| MapObject (m : gmap string apb.any)
| SpecObject (s : Spec.t).

Definition alloc (o : Object) (h : list Object) : nat * list Object :=
  (length h, h ++ [o]).

Definition NewSpec (v : TarValues.t) (h : list Object) : nat * list Object :=
  let parameter :=
    {| apb.ParameterDescriptor.Name := "values";
       apb.ParameterDescriptor.Title := "Values";
       apb.ParameterDescriptor.Type_ := "string";
       apb.ParameterDescriptor.DisplayType := "textarea";
       apb.ParameterDescriptor.Default := apb.str (TarValues.Values v) |} in
  let '(planMetadata, h) := alloc (MapObject ∅) h in
  let plan :=
    {| Plan.Name := "default";
       Plan.Description := fmt.Sprintf "Deploys helm chart %s" [TarValues.Name v];
       Plan.Free := true;
       Plan.Metadata := planMetadata;
       Plan.Parameters := [parameter] |} in
  let '(metadata, h) :=
    alloc (MapObject
             (<["displayName" :=
                  apb.str (fmt.Sprintf "%s (helm bundle)" [TarValues.Name v])]>
                (<["imageUrl" := apb.str (TarValues.Icon v)]> ∅))) h in
  let spec :=
    {| Spec.Version := "1.0";
       Spec.Name := fmt.Sprintf "%s-apb" [TarValues.Name v];
       Spec.Description := TarValues.Description v;
       Spec.Bindable := false;
       Spec.Async := "optional";
       Spec.Metadata := metadata;
       Spec.Plans := [plan] |} in
  alloc (SpecObject spec) h.

(** Reading a descriptor through its references: the record with the maps
    in the place of their addresses, as a deep comparison sees it. *)
Definition loadMap (h : list Object) (a : nat) : option (gmap string apb.any) :=
  match h !! a with
  | Some (MapObject m) => Some m
  | _ => None
  end.

Definition loadPlan (h : list Object) (p : Plan.t) : option apb.Plan.t :=
  match loadMap h (Plan.Metadata p) with
  | Some m =>
      Some {| apb.Plan.Name := Plan.Name p;
              apb.Plan.Description := Plan.Description p;
              apb.Plan.Free := Plan.Free p;
              apb.Plan.Metadata := m;
              apb.Plan.Parameters := Plan.Parameters p |}
  | None => None
  end.

Fixpoint loadPlans (h : list Object) (ps : list Plan.t) : option (list apb.Plan.t) :=
  match ps with
  | [] => Some []
  | p :: ps' =>
      match loadPlan h p, loadPlans h ps' with
      | Some x, Some xs => Some (x :: xs)
      | _, _ => None
      end
  end.

Definition load (h : list Object) (a : nat) : option apb.Spec.t :=
  match h !! a with
  | Some (SpecObject s) =>
      match loadMap h (Spec.Metadata s), loadPlans h (Spec.Plans s) with
      | Some m, Some ps =>
          Some {| apb.Spec.Version := Spec.Version s;
                  apb.Spec.Name := Spec.Name s;
                  apb.Spec.Description := Spec.Description s;
                  apb.Spec.Bindable := Spec.Bindable s;
                  apb.Spec.Async := Spec.Async s;
                  apb.Spec.Metadata := m;
                  apb.Spec.Plans := ps |}
      | _, _ => None
      end
  | _ => None
  end.

(** The addresses of the maps a descriptor refers to. *)
Definition mapsOf (h : list Object) (a : nat) : list nat :=
  match h !! a with
  | Some (SpecObject s) => Spec.Metadata s :: map Plan.Metadata (Spec.Plans s)
  | _ => []
  end.

End heap.

(** ** Vocabulary of the statements *)

(** A chunk of plain bytes: no [*] and no other metacharacter. *)
Fixpoint literal (chunk : string) : bool :=
  match chunk with
  | EmptyString => true
  | String c chunk' => negb (path.isStar c) && negb (path.isMeta c) && literal chunk'
  end.

(** [s] without its prefix [chunk], when it starts with it. *)
Fixpoint stripPrefix (chunk s : string) : option string :=
  match chunk, s with
  | EmptyString, _ => Some s
  | String c chunk', String d s' =>
      if Ascii.eqb c d then stripPrefix chunk' s' else None
  | String _ _, EmptyString => None
  end.

(** The member's name, as the loop reads it from the header. *)
Definition nameOf (e : tar.Entry) : string := tar.Name (tar.hdr e).

(** The one parameter of the one plan. *)
Definition valuesParameter (text : string) : apb.ParameterDescriptor.t :=
  {| apb.ParameterDescriptor.Name := "values";
     apb.ParameterDescriptor.Title := "Values";
     apb.ParameterDescriptor.Type_ := "string";
     apb.ParameterDescriptor.DisplayType := "textarea";
     apb.ParameterDescriptor.Default := apb.str text |}.

(** The build recipe for an archive named [tarfile], around the name. *)
Definition dockerfileHead : string :=
  "FROM ansibleplaybookbundle/helm-bundle-base" +:+ LF +:+ LF +:+
  "LABEL " +:+ QUOTE +:+ "com.redhat.apb.spec" +:+ QUOTE +:+ "=\" +:+ LF +:+
  QUOTE +:+ QUOTE +:+ LF +:+ LF +:+ "COPY ".

Definition dockerfileTail : string :=
  " /opt/chart.tgz" +:+ LF +:+ LF +:+
  "ENTRYPOINT [" +:+ QUOTE +:+ "entrypoint.sh" +:+ QUOTE +:+ "]" +:+ LF.

Definition dockerfileFor (tarfile : string) : string :=
  dockerfileHead +:+ tarfile +:+ dockerfileTail.

(** The world [w] with the file [name] holding [data]. *)
Definition withFile (name data : string) (w : World) : World :=
  {| files := <[name := data]> (files w); stdout := stdout w |}.

(** The stat faults are real ones: none of them says that the file is not
    there. *)
Definition honestStat (fl : os.Faults) : Prop :=
  forall name err, os.stat fl name = Some err -> os.IsNotExist err = false.

(** The part of [run] after the check for existing files. *)
Definition work (Unmarshal : string -> Result Chart.t) (Open : string -> Result File)
           (Marshal : apb.Spec.t -> Result string) (fl : os.Faults)
           (filename : string) (w : World) : World * option nat :=
  match fst (getTarValues Unmarshal Open filename) with
  | inr err => fail err "could not get values from helm chart" w
  | inl values =>
      match writeApbYaml Marshal fl values w with
      | (Some err, w) => fail err "could not render template" w
      | (None, w) =>
          match writeDockerfile fl values w with
          | (Some err, w) => fail err "could not render template" w
          | (None, w) => (w, None)
          end
      end
  end.

(** ** The model at work *)

Example Match_chart_1 : path.Match "*/Chart.yaml" "mychart/Chart.yaml" = Ok true.
Proof. reflexivity. Qed.
Example Match_chart_2 : path.Match "*/Chart.yaml" "mychart/sub/Chart.yaml" = Ok false.
Proof. reflexivity. Qed.
Example Match_chart_3 : path.Match "*/Chart.yaml" "/Chart.yaml" = Ok true.
Proof. reflexivity. Qed.
Example Match_chart_4 : path.Match "*/Chart.yaml" "a/Chart.yamlx" = Ok false.
Proof. reflexivity. Qed.
Example Match_chart_5 : path.Match "*/Chart.yaml" "Chart.yaml" = Ok false.
Proof. reflexivity. Qed.
Example Match_star : path.Match "a*b*" "axxbyy" = Ok true.
Proof. reflexivity. Qed.

Example run_chart : getTarValues Sample.Unmarshal Sample.Open "chart.tgz"
  = (Ok {| TarValues.Name := "foo"; TarValues.Description := "bar";
           TarValues.Icon := "http://x/icon.png"; TarValues.TarfileName := "chart.tgz";
           TarValues.Values := Sample.valuesYaml |}, [Sample.chartMember; Sample.valuesMember]).
Proof. reflexivity. Qed.

(** ** Properties of [path.Match] *)

Section MatchFacts.

Import path.

Lemma stripPrefix_Some chunk s t :
  stripPrefix chunk s = Some t <-> s = chunk +:+ t.
Proof.
  revert s; induction chunk as [|c chunk IH]; intros s; simpl.
  - split; [intros [= ->] | intros ->]; reflexivity.
  - destruct s as [|d s].
    + split; discriminate.
    + destruct (Ascii.eqb_spec c d) as [->|Hne].
      * rewrite IH. split; [intros -> | intros [= ->]]; reflexivity.
      * split; [discriminate | intros [= Hd _]; congruence].
Qed.

Lemma matchChunk_failed chunk s :
  literal chunk = true -> matchChunk true chunk s = Ok None.
Proof.
  induction chunk as [|c chunk IH]; simpl; [reflexivity|].
  intros H. apply andb_prop in H as [H Hl]. apply andb_prop in H as [_ Hm].
  apply negb_true_iff in Hm. rewrite Hm. auto.
Qed.

Lemma matchChunk_literal chunk s :
  literal chunk = true -> matchChunk false chunk s = Ok (stripPrefix chunk s).
Proof.
  revert s; induction chunk as [|c chunk IH]; intros s; simpl; [reflexivity|].
  intros H. apply andb_prop in H as [H Hl]. apply andb_prop in H as [_ Hm].
  apply negb_true_iff in Hm. rewrite Hm.
  destruct s as [|d s].
  - apply matchChunk_failed, Hl.
  - destruct (Ascii.eqb c d); [apply IH, Hl | apply matchChunk_failed, Hl].
Qed.

Lemma untilStar_literal chunk :
  literal chunk = true -> untilStar chunk = (chunk, EmptyString).
Proof.
  induction chunk as [|c chunk IH]; simpl; [reflexivity|].
  intros H. apply andb_prop in H as [H Hl]. apply andb_prop in H as [Hs _].
  apply negb_true_iff in Hs. rewrite Hs, (IH Hl). reflexivity.
Qed.

Lemma hasSlash_cons c s : hasSlash (String c s) = isSlash c || hasSlash s.
Proof. reflexivity. Qed.

Lemma length_append (s t : string) :
  String.length (s +:+ t) = String.length s + String.length t.
Proof. induction s; simpl; congruence. Qed.

Lemma append_nil_r (s : string) : s +:+ "" = s.
Proof. induction s; simpl; congruence. Qed.

Lemma append_same_tail (d chunk : string) : d +:+ chunk = chunk -> d = "".
Proof.
  intros H. apply (f_equal String.length) in H. rewrite length_append in H.
  destruct d; [reflexivity | simpl in H; lia].
Qed.

(** What the skipping loop finds for a last chunk: a non-empty run without
    [/], followed by exactly the chunk. *)
Lemma skipLoop_last chunk name :
  literal chunk = true ->
  (skipLoop chunk true name = Ok (Some "") /\
     exists c d, name = String c d +:+ chunk /\ hasSlash (String c d) = false)
  \/ (skipLoop chunk true name = Ok None /\
     forall c d, name = String c d +:+ chunk -> hasSlash (String c d) = true).
Proof.
  intros Hl. induction name as [|a name IH]; simpl.
  - right. split; [reflexivity|]. intros c d; discriminate.
  - destruct (isSlash a) eqn:Ha.
    + right. split; [reflexivity|]. intros c d [= <- _].
      rewrite hasSlash_cons, Ha. reflexivity.
    + rewrite (matchChunk_literal _ _ Hl).
      destruct (stripPrefix chunk name) as [t|] eqn:Hs.
      * apply stripPrefix_Some in Hs.
        destruct t as [|b t]; simpl.
        -- left. split; [reflexivity|]. exists a, "".
           rewrite append_nil_r in Hs. subst name.
           split; [reflexivity|]. rewrite hasSlash_cons, Ha. reflexivity.
        -- destruct IH as [[-> (c & d & Hn & Hd)] | [-> Hno]].
           ++ left. split; [reflexivity|]. exists a, (String c d).
              split; [simpl in *; congruence|].
              rewrite hasSlash_cons, Ha. exact Hd.
           ++ right. split; [reflexivity|]. intros c d [= <- Hn].
              rewrite hasSlash_cons, Ha. simpl.
              destruct d as [|c' d'].
              ** simpl in Hn. rewrite Hn in Hs.
                 apply (f_equal String.length) in Hs.
                 rewrite length_append in Hs. simpl in Hs. lia.
              ** apply (Hno _ _ Hn).
      * destruct IH as [[-> (c & d & Hn & Hd)] | [-> Hno]].
        -- left. split; [reflexivity|]. exists a, (String c d).
           split; [simpl in *; congruence|].
           rewrite hasSlash_cons, Ha. exact Hd.
        -- right. split; [reflexivity|]. intros c d [= <- Hn].
           rewrite hasSlash_cons, Ha. simpl.
           destruct d as [|c' d'].
           ++ simpl in Hn. subst name.
              assert (stripPrefix chunk chunk = Some "") as E
                by (apply stripPrefix_Some; symmetry; apply append_nil_r).
              congruence.
           ++ apply (Hno _ _ Hn).
Qed.

(** [*] followed by a chunk of plain bytes: the name is one run without [/]
    (possibly empty) followed by exactly the chunk. *)
Lemma Match_star_literal c chunk name :
  literal (String c chunk) = true ->
  (path.Match (String "*" (String c chunk)) name = Ok true /\
     exists d, name = d +:+ String c chunk /\ hasSlash d = false)
  \/ (path.Match (String "*" (String c chunk)) name = Ok false /\
     forall d, name = d +:+ String c chunk -> hasSlash d = true).
Proof.
  intros Hl. unfold path.Match.
  assert (Hc : isStar c = false).
  { simpl in Hl. apply andb_prop in Hl as [H _]. apply andb_prop in H as [H _].
    apply negb_true_iff in H. exact H. }
  cbn [MatchLoop String.length]. unfold scanChunk.
  cbn [skipStars]. change (isStar "*") with true. cbv iota.
  cbn [skipStars]. rewrite Hc.
  rewrite (untilStar_literal _ Hl).
  change ("" =? "")%string with true.
  change (String c chunk =? "")%string with false.
  cbn [andb orb negb].
  rewrite (matchChunk_literal _ _ Hl).
  destruct (skipLoop_last (String c chunk) name Hl) as [[Hk (a & d & Hn & Hd)] | [Hk Hno]].
  - left. split; [|eauto].
    destruct (stripPrefix (String c chunk) name) as [t|] eqn:Hs.
    + destruct t; cbn [String.eqb]; [reflexivity|].
      rewrite Hk. reflexivity.
    + rewrite Hk. reflexivity.
  - destruct (stripPrefix (String c chunk) name) as [t|] eqn:Hs.
    + apply stripPrefix_Some in Hs. destruct t as [|b t].
      * left. split; [reflexivity|]. exists "".
        rewrite append_nil_r in Hs. split; [exact Hs | reflexivity].
      * right. cbn [String.eqb]. rewrite Hk. split; [reflexivity|].
        intros [|a d] Hn; [|eauto].
        simpl in Hn. rewrite Hn in Hs.
        apply (f_equal String.length) in Hs. rewrite length_append in Hs.
        simpl in Hs. lia.
    + right. rewrite Hk. split; [reflexivity|].
      intros [|a d] Hn; [|eauto].
      simpl in Hn. subst name.
      assert (stripPrefix (String c chunk) (String c chunk) = Some "") as E
        by (apply stripPrefix_Some; symmetry; apply append_nil_r).
      congruence.
Qed.

End MatchFacts.

(** A member name matches at most one of the two patterns. *)
Lemma suffixes_differ (d d' : string) :
  d +:+ "/Chart.yaml" = d' +:+ "/values.yaml" -> False.
Proof.
  revert d'; induction d as [|a d IH]; intros d' H.
  - apply (f_equal String.length) in H. rewrite !length_append in H.
    simpl in H. lia.
  - destruct d' as [|a' d'].
    + simpl in H. injection H as _ H.
      destruct d as [|b d]; [discriminate|].
      apply (f_equal String.length) in H. simpl in H.
      rewrite length_append in H. simpl in H. lia.
    + simpl in H. injection H as _ H. exact (IH _ H).
Qed.

Lemma Match_chart_total name : exists b, path.Match "*/Chart.yaml" name = Ok b.
Proof.
  destruct (Match_star_literal "/" "Chart.yaml" name eq_refl) as [[H _]|[H _]];
    eauto.
Qed.

Lemma Match_values_total name : exists b, path.Match "*/values.yaml" name = Ok b.
Proof.
  destruct (Match_star_literal "/" "values.yaml" name eq_refl) as [[H _]|[H _]];
    eauto.
Qed.

Lemma Match_chart_iff name :
  path.Match "*/Chart.yaml" name = Ok true <->
  exists d, name = d +:+ "/Chart.yaml" /\ path.hasSlash d = false.
Proof.
  destruct (Match_star_literal "/" "Chart.yaml" name eq_refl) as [[H Hd]|[H Hd]];
    rewrite H.
  - tauto.
  - split; [discriminate|]. intros (d & Hn & Hs). rewrite (Hd d Hn) in Hs.
    discriminate.
Qed.

Lemma Match_values_iff name :
  path.Match "*/values.yaml" name = Ok true <->
  exists d, name = d +:+ "/values.yaml" /\ path.hasSlash d = false.
Proof.
  destruct (Match_star_literal "/" "values.yaml" name eq_refl) as [[H Hd]|[H Hd]];
    rewrite H.
  - tauto.
  - split; [discriminate|]. intros (d & Hn & Hs). rewrite (Hd d Hn) in Hs.
    discriminate.
Qed.

Lemma Match_exclusive name :
  path.Match "*/Chart.yaml" name = Ok true ->
  path.Match "*/values.yaml" name = Ok true -> False.
Proof.
  intros (d & -> & _)%Match_chart_iff (d' & H & _)%Match_values_iff.
  exact (suffixes_differ _ _ H).
Qed.

Lemma Match_chart_not_values name :
  path.Match "*/Chart.yaml" name = Ok true ->
  path.Match "*/values.yaml" name = Ok false.
Proof.
  intros H. destruct (Match_values_total name) as [[|] Hv]; [|exact Hv].
  destruct (Match_exclusive _ H Hv).
Qed.

Lemma Match_values_not_chart name :
  path.Match "*/values.yaml" name = Ok true ->
  path.Match "*/Chart.yaml" name = Ok false.
Proof.
  intros H. destruct (Match_chart_total name) as [[|] Hc]; [|exact Hc].
  destruct (Match_exclusive _ Hc H).
Qed.

(** ** Properties of the extractor *)

Section ExtractorFacts.

Variable Unmarshal : string -> Result Chart.t.
Variable Open : string -> Result File.

Lemma visit_other e chart values :
  path.Match "*/Chart.yaml" (nameOf e) = Ok false ->
  path.Match "*/values.yaml" (nameOf e) = Ok false ->
  visit Unmarshal e chart values = Ok (chart, values).
Proof.
  unfold visit, nameOf. intros -> ->. reflexivity.
Qed.

Lemma visit_chart e chart values :
  path.Match "*/Chart.yaml" (nameOf e) = Ok true ->
  visit Unmarshal e chart values =
    match tar.body e with
    | inl data =>
        match Unmarshal data with
        | inl c => Ok (c, values)
        | inr err => Err err
        end
    | inr err => Err err
    end.
Proof.
  intros H. pose proof (Match_chart_not_values _ H) as Hv.
  unfold visit, nameOf in *. rewrite H, Hv. unfold parseChart. simpl.
  destruct (tar.body e) as [data|err]; simpl; [|reflexivity].
  destruct (Unmarshal data); reflexivity.
Qed.

Lemma visit_values e chart values :
  path.Match "*/values.yaml" (nameOf e) = Ok true ->
  visit Unmarshal e chart values =
    match tar.body e with
    | inl data => Ok (chart, data)
    | inr err => Err err
    end.
Proof.
  intros H. pose proof (Match_values_not_chart _ H) as Hc.
  unfold visit, nameOf in *. rewrite H, Hc. simpl.
  destruct (tar.body e) as [data|err]; reflexivity.
Qed.

Lemma found_true chart values :
  found chart values = true <-> values <> "" /\ Chart.Name chart <> "".
Proof.
  unfold found. rewrite andb_true_iff, !Nat.ltb_lt.
  destruct values, (Chart.Name chart); simpl; split; intros [? ?];
    split; try lia; congruence.
Qed.

Lemma found_no_name chart values :
  Chart.Name chart = "" -> found chart values = false.
Proof. unfold found. intros ->. apply andb_false_r. Qed.

Lemma found_no_values chart : found chart "" = false.
Proof. reflexivity. Qed.

(** The loop on an archive that starts with members it passes. *)
Lemma scan_passes ending p s chart values chart' values' :
  passes Unmarshal p chart values = Some (chart', values') ->
  scan Unmarshal ending (p ++ s) chart values =
    (let '(r, seen) := scan Unmarshal ending s chart' values' in (r, p ++ seen)).
Proof.
  revert chart values; induction p as [|e p IH]; intros chart values; simpl.
  - intros [= -> ->]. destruct (scan _ _ _ _ _); reflexivity.
  - destruct (visit Unmarshal e chart values) as [[c v]|err]; [|discriminate].
    destruct (found c v); [discriminate|].
    intros H. rewrite (IH _ _ H).
    destruct (scan Unmarshal ending s chart' values'); reflexivity.
Qed.

(** The loop is left through [break] only when both pieces were found. *)
Lemma scan_Ok ending entries chart values chart' values' seen :
  scan Unmarshal ending entries chart values = (Ok (chart', values'), seen) ->
  found chart' values' = true.
Proof.
  revert chart values seen; induction entries as [|e rest IH];
    intros chart values seen; simpl.
  - destruct ending; discriminate.
  - destruct (visit Unmarshal e chart values) as [[c v]|err]; [|discriminate].
    destruct (found c v) eqn:Hf.
    + intros [= <- <- _]. exact Hf.
    + destruct (scan Unmarshal ending rest c v) as [r seen'] eqn:Hs.
      intros [= -> _]. exact (IH _ _ _ Hs).
Qed.

(** The members read are a prefix of the archive. *)
Lemma scan_seen ending entries chart values r seen :
  scan Unmarshal ending entries chart values = (r, seen) ->
  exists unread, entries = seen ++ unread.
Proof.
  revert chart values r seen; induction entries as [|e rest IH];
    intros chart values r seen; simpl.
  - destruct ending; intros [= _ <-]; exists []; reflexivity.
  - destruct (visit Unmarshal e chart values) as [[c v]|err].
    + destruct (found c v).
      * intros [= _ <-]. exists rest; reflexivity.
      * destruct (scan Unmarshal ending rest c v) as [r' seen'] eqn:Hs.
        intros [= _ <-]. destruct (IH _ _ _ _ Hs) as [u ->].
        exists u; reflexivity.
    + intros [= _ <-]. exists rest; reflexivity.
Qed.

Lemma getTarValues_archive filename entries ending :
  Open filename = Ok (Archive entries ending) ->
  getTarValues Unmarshal Open filename =
    match scan Unmarshal ending entries Chart.zero "" with
    | (inr err, seen) => (Err err, seen)
    | (inl (chart, values), seen) =>
        (Ok {| TarValues.Name := Chart.Name chart;
               TarValues.Description := Chart.Description chart;
               TarValues.Icon := Chart.Icon chart;
               TarValues.TarfileName := filename;
               TarValues.Values := values |}, seen)
    end.
Proof.
  intros H. unfold getTarValues. rewrite H. unfold Ok at 1. cbv iota.
  destruct (scan Unmarshal ending entries Chart.zero "") as [[[c v]|err] seen] eqn:Hs;
    [|reflexivity].
  rewrite (scan_Ok _ _ _ _ _ _ _ Hs). reflexivity.
Qed.

End ExtractorFacts.

Section ScanFacts.

Variable Unmarshal : string -> Result Chart.t.
Variable Open : string -> Result File.

Lemma passes_app p s chart values chart' values' :
  passes Unmarshal p chart values = Some (chart', values') ->
  passes Unmarshal (p ++ s) chart values = passes Unmarshal s chart' values'.
Proof.
  revert chart values; induction p as [|e p IH]; intros chart values; simpl.
  - intros [= -> ->]. reflexivity.
  - destruct (visit Unmarshal e chart values) as [[c v]|err]; [|discriminate].
    destruct (found c v); [discriminate | apply IH].
Qed.

(** The archive runs out while the loop is still looking. *)
Lemma exhausted filename entries chart values :
  Open filename = Ok (Archive entries EOF) ->
  passes Unmarshal entries Chart.zero "" = Some (chart, values) ->
  getTarValues Unmarshal Open filename =
    (Err (errors.New "Chart.yaml not found in archive"), entries).
Proof.
  intros Ho Hp. rewrite (getTarValues_archive _ _ _ _ _ Ho).
  pose proof (scan_passes Unmarshal EOF entries [] _ _ _ _ Hp) as Hs.
  simpl in Hs. rewrite !app_nil_r in Hs. rewrite Hs. reflexivity.
Qed.

(** The loop stops at the first member [e] after which both pieces are
    there. *)
Lemma stops_at filename p e s ending chart values chart' values' :
  Open filename = Ok (Archive (p ++ e :: s) ending) ->
  passes Unmarshal p Chart.zero "" = Some (chart, values) ->
  visit Unmarshal e chart values = Ok (chart', values') ->
  found chart' values' = true ->
  getTarValues Unmarshal Open filename =
    (Ok {| TarValues.Name := Chart.Name chart';
           TarValues.Description := Chart.Description chart';
           TarValues.Icon := Chart.Icon chart';
           TarValues.TarfileName := filename;
           TarValues.Values := values' |}, p ++ [e]).
Proof.
  intros Ho Hp Hv Hf. rewrite (getTarValues_archive _ _ _ _ _ Ho).
  rewrite (scan_passes _ _ _ _ _ _ _ _ Hp). simpl.
  unfold Ok in Hv. rewrite Hv, Hf. reflexivity.
Qed.

(** The loop returns the error of the member [e] it fails on. *)
Lemma fails_at filename p e s ending chart values err :
  Open filename = Ok (Archive (p ++ e :: s) ending) ->
  passes Unmarshal p Chart.zero "" = Some (chart, values) ->
  visit Unmarshal e chart values = Err err ->
  getTarValues Unmarshal Open filename = (Err err, p ++ [e]).
Proof.
  intros Ho Hp Hv. rewrite (getTarValues_archive _ _ _ _ _ Ho).
  rewrite (scan_passes _ _ _ _ _ _ _ _ Hp). simpl.
  unfold Err in Hv. rewrite Hv. reflexivity.
Qed.

(** Members whose metadata has no name never end the scan. *)
Lemma passes_no_name s chart values :
  Chart.Name chart = "" ->
  (forall e, In e s -> path.Match "*/Chart.yaml" (nameOf e) = Ok true ->
     exists data c, tar.body e = Ok data /\ Unmarshal data = Ok c /\
                    Chart.Name c = "") ->
  (forall e, In e s -> path.Match "*/values.yaml" (nameOf e) = Ok true ->
     exists data, tar.body e = Ok data) ->
  exists chart' values',
    passes Unmarshal s chart values = Some (chart', values') /\
    Chart.Name chart' = "".
Proof.
  revert chart values; induction s as [|e s IH]; intros chart values Hn Hc Hv.
  - exists chart, values. split; [reflexivity | exact Hn].
  - assert (exists c v, visit Unmarshal e chart values = inl (c, v) /\
                        Chart.Name c = "") as (c & v & He & Hn').
    { destruct (Match_chart_total (nameOf e)) as [[|] Hm].
      - destruct (Hc e (or_introl eq_refl) Hm) as (data & c & Hb & Hu & Hc').
        exists c, values. rewrite (visit_chart _ _ _ _ Hm), Hb. unfold Ok.
        unfold Ok in Hu. rewrite Hu. split; [reflexivity | exact Hc'].
      - destruct (Match_values_total (nameOf e)) as [[|] Hm'].
        + destruct (Hv e (or_introl eq_refl) Hm') as (data & Hb).
          exists chart, data. rewrite (visit_values _ _ _ _ Hm'), Hb.
          split; [reflexivity | exact Hn].
        + exists chart, values. rewrite (visit_other _ _ _ _ Hm Hm').
          split; [reflexivity | exact Hn]. }
    simpl. rewrite He, (found_no_name _ _ Hn').
    apply IH; [exact Hn' | |]; intros e' Hin; [apply Hc | apply Hv];
      right; exact Hin.
Qed.


End ScanFacts.

Section SuccessPath.

Variable Unmarshal : string -> Result Chart.t.

Lemma found_false chart values :
  found chart values = false <-> values = "" \/ Chart.Name chart = "".
Proof.
  unfold found. rewrite andb_false_iff, !Nat.ltb_ge.
  destruct values, (Chart.Name chart); simpl; split; intros [?|?];
    try (left; reflexivity); try (right; reflexivity);
    try lia; try discriminate.
Qed.

(** When every metadata member decodes to [c0] and every values member
    holds [vals], and the archive has one of each, the loop ends with
    both. *)
Lemma finds_both ending c0 vals s chart values :
  Chart.Name c0 <> "" -> vals <> "" ->
  found chart values = false ->
  chart = c0 \/ Chart.Name chart = "" ->
  values = vals \/ values = "" ->
  (forall e, In e s -> path.Match "*/Chart.yaml" (nameOf e) = Ok true ->
     exists data, tar.body e = Ok data /\ Unmarshal data = Ok c0) ->
  (forall e, In e s -> path.Match "*/values.yaml" (nameOf e) = Ok true ->
     tar.body e = Ok vals) ->
  (Chart.Name chart = "" ->
     exists e, In e s /\ path.Match "*/Chart.yaml" (nameOf e) = Ok true) ->
  (values = "" ->
     exists e, In e s /\ path.Match "*/values.yaml" (nameOf e) = Ok true) ->
  exists seen, scan Unmarshal ending s chart values = (Ok (c0, vals), seen).
Proof.
  intros Hc0 Hvals. revert chart values.
  induction s as [|e s IH]; intros chart values Hf Hc Hv Hcs Hvs Hec Hev.
  - apply found_false in Hf as [Hf|Hf].
    + destruct (Hev Hf) as (e & [ ] & _).
    + destruct (Hec Hf) as (e & [ ] & _).
  - assert (Hcs' : forall e', In e' s ->
              path.Match "*/Chart.yaml" (nameOf e') = Ok true ->
              exists data, tar.body e' = Ok data /\ Unmarshal data = Ok c0)
      by (intros e' Hin; apply Hcs; right; exact Hin).
    assert (Hvs' : forall e', In e' s ->
              path.Match "*/values.yaml" (nameOf e') = Ok true ->
              tar.body e' = Ok vals)
      by (intros e' Hin; apply Hvs; right; exact Hin).
    simpl.
    destruct (Match_chart_total (nameOf e)) as [[|] Hm].
    + destruct (Hcs e (or_introl eq_refl) Hm) as (data & Hb & Hu).
      rewrite (visit_chart _ _ _ _ Hm), Hb. unfold Ok. unfold Ok in Hu.
      rewrite Hu. destruct (found c0 values) eqn:Hf'.
      * apply found_true in Hf' as [Hne _].
        destruct Hv as [-> | ->]; [|congruence]. eexists; reflexivity.
      * destruct (IH c0 values Hf' (or_introl eq_refl) Hv Hcs' Hvs')
          as [seen Hs].
        -- intros Hn; congruence.
        -- intros Hn. destruct (Hev Hn) as (e' & [<-|Hin] & Hm'); [|eauto].
           destruct (Match_exclusive _ Hm Hm').
        -- rewrite Hs. eexists; reflexivity.
    + destruct (Match_values_total (nameOf e)) as [[|] Hm'].
      * rewrite (visit_values _ _ _ _ Hm'), (Hvs e (or_introl eq_refl) Hm').
        unfold Ok. destruct (found chart vals) eqn:Hf'.
        -- apply found_true in Hf' as [_ Hne].
           destruct Hc as [->|Hc]; [|congruence]. eexists; reflexivity.
        -- destruct (IH chart vals Hf' Hc (or_introl eq_refl) Hcs' Hvs')
             as [seen Hs].
           ++ intros Hn. destruct (Hec Hn) as (e' & [<-|Hin] & Hm''); [|eauto].
              unfold Ok in *. congruence.
           ++ intros Hn; congruence.
           ++ rewrite Hs. eexists; reflexivity.
      * rewrite (visit_other _ _ _ _ Hm Hm'). unfold Ok. rewrite Hf.
        destruct (IH chart values Hf Hc Hv Hcs' Hvs') as [seen Hs].
        -- intros Hn. destruct (Hec Hn) as (e' & [<-|Hin] & Hm''); [|eauto].
           unfold Ok in *. congruence.
        -- intros Hn. destruct (Hev Hn) as (e' & [<-|Hin] & Hm''); [|eauto].
           unfold Ok in *. congruence.
        -- rewrite Hs. eexists; reflexivity.
Qed.

End SuccessPath.

(** ** The descriptor builder *)

Lemma Sprintf_name (name : string) :
  fmt.Sprintf "%s-apb" [name] = name +:+ "-apb".
Proof. reflexivity. Qed.

Lemma Sprintf_displayName (name : string) :
  fmt.Sprintf "%s (helm bundle)" [name] = name +:+ " (helm bundle)".
Proof. reflexivity. Qed.

Lemma Sprintf_description (name : string) :
  fmt.Sprintf "Deploys helm chart %s" [name] = "Deploys helm chart " +:+ name.
Proof. cbn [fmt.Sprintf]. rewrite append_nil_r. reflexivity. Qed.

(** C2: for every extraction result, the descriptor built by [NewSpec] is
    named after the chart with the suffix "-apb", shows the chart name
    followed by " (helm bundle)" as display name and the input's icon as
    image, is never bindable, is "optional" for asynchrony, and has exactly
    one plan: "default", described as "Deploys helm chart " and the chart
    name, free of charge, with exactly one parameter, the textarea-typed
    string parameter "values" whose default is the whole values text. *)
Theorem NewSpec_fields (v : TarValues.t) :
  apb.Spec.Name (NewSpec v) = TarValues.Name v +:+ "-apb" /\
  apb.Spec.Metadata (NewSpec v) !! "displayName"
    = Some (apb.str (TarValues.Name v +:+ " (helm bundle)")) /\
  apb.Spec.Metadata (NewSpec v) !! "imageUrl"
    = Some (apb.str (TarValues.Icon v)) /\
  apb.Spec.Description (NewSpec v) = TarValues.Description v /\
  apb.Spec.Bindable (NewSpec v) = false /\
  apb.Spec.Async (NewSpec v) = "optional" /\
  exists plan,
    apb.Spec.Plans (NewSpec v) = [plan] /\
    apb.Plan.Name plan = "default" /\
    apb.Plan.Description plan = "Deploys helm chart " +:+ TarValues.Name v /\
    apb.Plan.Free plan = true /\
    apb.Plan.Parameters plan = [valuesParameter (TarValues.Values v)].
Proof.
  split; [apply Sprintf_name|].
  split; [unfold NewSpec; cbn [apb.Spec.Metadata]; apply lookup_insert_eq|].
  split.
  { unfold NewSpec; cbn [apb.Spec.Metadata].
    rewrite lookup_insert_ne by discriminate. apply lookup_insert_eq. }
  do 3 (split; [reflexivity|]).
  eexists. split; [reflexivity|].
  cbn [apb.Plan.Name apb.Plan.Description apb.Plan.Free apb.Plan.Parameters].
  rewrite Sprintf_description. repeat split.
Qed.

(** The three objects one call adds to the heap, and the address it
    returns. *)
Lemma heap_NewSpec_shape (v : TarValues.t) (h : list heap.Object) :
  heap.NewSpec v h =
    (length h + 2,
     h ++ [heap.MapObject ∅;
           heap.MapObject (apb.Spec.Metadata (NewSpec v));
           heap.SpecObject
             {| heap.Spec.Version := "1.0";
                heap.Spec.Name := apb.Spec.Name (NewSpec v);
                heap.Spec.Description := TarValues.Description v;
                heap.Spec.Bindable := false;
                heap.Spec.Async := "optional";
                heap.Spec.Metadata := length h + 1;
                heap.Spec.Plans :=
                  [{| heap.Plan.Name := "default";
                      heap.Plan.Description :=
                        fmt.Sprintf "Deploys helm chart %s" [TarValues.Name v];
                      heap.Plan.Free := true;
                      heap.Plan.Metadata := length h + 0;
                      heap.Plan.Parameters :=
                        [valuesParameter (TarValues.Values v)] |}] |}]).
Proof.
  unfold heap.NewSpec, heap.alloc. cbv zeta. cbv iota beta.
  rewrite !length_app. cbn [length].
  replace (length h + 1 + 1) with (length h + 2) by lia.
  rewrite Nat.add_0_r. rewrite <- !app_assoc. reflexivity.
Qed.

Lemma lookup_after (h l : list heap.Object) (k : nat) :
  (h ++ l) !! (length h + k) = l !! k.
Proof. rewrite lookup_app_r by lia. f_equal. lia. Qed.

(** Reading the descriptor a call made, in the heap it left and in every
    heap grown from it. *)
Lemma heap_load_NewSpec (v : TarValues.t) (h more : list heap.Object) p h' :
  heap.NewSpec v h = (p, h') ->
  heap.load (h' ++ more) p = Some (NewSpec v) /\
  heap.mapsOf (h' ++ more) p = [length h + 1; length h + 0].
Proof.
  rewrite heap_NewSpec_shape. intros H.
  apply pair_equal_spec in H as [<- <-].
  rewrite <- !app_assoc.
  match goal with
  | |- context [h ++ ?l] =>
      pose proof (lookup_after h l 0) as H0;
      pose proof (lookup_after h l 1) as H1;
      pose proof (lookup_after h l 2) as H2
  end.
  cbn [app lookup list_lookup] in H0, H1, H2. cbn [app].
  unfold heap.load, heap.mapsOf. rewrite H2.
  cbn [heap.Spec.Metadata heap.Spec.Plans heap.loadPlans heap.loadPlan
       heap.Plan.Metadata map].
  unfold heap.loadMap. rewrite H1.
  unfold heap.loadPlan, heap.loadMap. cbn [heap.Plan.Metadata].
  rewrite H0. split; reflexivity.
Qed.

(** C9: two calls of [NewSpec] on structurally equal inputs give structurally
    equal descriptors, and no state has a part in it.  Whatever the heap holds
    before the first call, the descriptor behind each returned pointer, read
    through its maps, is the record that the input alone determines; the
    second call leaves the first descriptor as it was; the two pointers
    differ and the two descriptors share no map; and no object that was on
    the heap before is changed. *)
Theorem NewSpec_deterministic (v1 v2 : TarValues.t) (h : list heap.Object)
        p1 h1 p2 h2 :
  v1 = v2 ->
  heap.NewSpec v1 h = (p1, h1) ->
  heap.NewSpec v2 h1 = (p2, h2) ->
  heap.load h2 p1 = heap.load h2 p2 /\
  heap.load h2 p1 = Some (NewSpec v1) /\
  heap.load h1 p1 = Some (NewSpec v1) /\
  p1 <> p2 /\
  (forall a, In a (heap.mapsOf h2 p1) -> In a (heap.mapsOf h2 p2) -> False) /\
  (forall a o, h !! a = Some o -> h2 !! a = Some o).
Proof.
  intros <- H1 H2.
  destruct (heap_load_NewSpec v1 h [] p1 h1 H1) as [L1 _].
  destruct (heap_load_NewSpec v1 h1 [] p2 h2 H2) as [L2 M2].
  rewrite app_nil_r in L1, L2, M2.
  pose proof H1 as S1. pose proof H2 as S2.
  rewrite heap_NewSpec_shape in S1, S2.
  injection S1 as Hp1 Hh1. injection S2 as Hp2 Hh2.
  assert (Hlen : length h1 = length h + 3)
    by (rewrite <- Hh1, length_app; reflexivity).
  destruct (heap_load_NewSpec v1 h (drop (length h1) h2) p1 h1 H1) as [L3 M3].
  assert (Hh : h1 ++ drop (length h1) h2 = h2).
  { rewrite <- Hh2. rewrite drop_app_length. reflexivity. }
  rewrite Hh in L3, M3.
  split; [congruence|]. split; [exact L3|]. split; [exact L1|].
  split; [lia|]. split.
  - rewrite M3, M2, Hlen. simpl. lia.
  - intros a o Ha. rewrite <- Hh2, <- Hh1.
    rewrite <- app_assoc. apply lookup_app_l_Some. exact Ha.
Qed.

Lemma NewSpec_deterministic_witness :
  heap.load (snd (heap.NewSpec Fixture.fooValues
                    (snd (heap.NewSpec Fixture.fooValues [heap.MapObject ∅]))))
            3
  = heap.load (snd (heap.NewSpec Fixture.fooValues
                      (snd (heap.NewSpec Fixture.fooValues [heap.MapObject ∅]))))
              6 /\
  heap.load (snd (heap.NewSpec Fixture.fooValues
                    (snd (heap.NewSpec Fixture.fooValues [heap.MapObject ∅]))))
            3
  = Some (NewSpec Fixture.fooValues) /\
  heap.load (snd (heap.NewSpec Fixture.fooValues [heap.MapObject ∅])) 3
  = Some (NewSpec Fixture.fooValues) /\
  3 <> 6 /\
  (forall a,
     In a (heap.mapsOf
             (snd (heap.NewSpec Fixture.fooValues
                     (snd (heap.NewSpec Fixture.fooValues [heap.MapObject ∅]))))
             3) ->
     In a (heap.mapsOf
             (snd (heap.NewSpec Fixture.fooValues
                     (snd (heap.NewSpec Fixture.fooValues [heap.MapObject ∅]))))
             6) -> False) /\
  (forall a o,
     [heap.MapObject ∅] !! a = Some o ->
     snd (heap.NewSpec Fixture.fooValues
            (snd (heap.NewSpec Fixture.fooValues [heap.MapObject ∅]))) !! a
     = Some o).
Proof.
  apply (NewSpec_deterministic Fixture.fooValues Fixture.fooValues
           [heap.MapObject ∅] 3
           (snd (heap.NewSpec Fixture.fooValues [heap.MapObject ∅])) 6
           (snd (heap.NewSpec Fixture.fooValues
                   (snd (heap.NewSpec Fixture.fooValues [heap.MapObject ∅]))))).
  - reflexivity.
  - vm_compute; reflexivity.
  - vm_compute; reflexivity.
Defined.

(** ** The extractor *)

(** C7: a member name matches the metadata pattern exactly when it is one
    directory segment (a run of bytes without [/]) followed by [/Chart.yaml],
    and the values pattern exactly when it is one such segment followed by
    [/values.yaml]; neither pattern is ever refused as malformed.  So
    [mychart/Chart.yaml] matches, and [mychart/sub/Chart.yaml], two
    directories deep, does not: the loop leaves [chart] and [values] as they
    were on such a member. *)
Theorem patterns_match_one_segment (name : string) :
  (path.Match "*/Chart.yaml" name = Ok true <->
     exists d, name = d +:+ "/Chart.yaml" /\ path.hasSlash d = false) /\
  (path.Match "*/values.yaml" name = Ok true <->
     exists d, name = d +:+ "/values.yaml" /\ path.hasSlash d = false) /\
  (exists b, path.Match "*/Chart.yaml" name = Ok b) /\
  (exists b, path.Match "*/values.yaml" name = Ok b) /\
  path.Match "*/Chart.yaml" "mychart/Chart.yaml" = Ok true /\
  path.Match "*/Chart.yaml" "mychart/sub/Chart.yaml" = Ok false /\
  (forall Unmarshal body chart values,
     visit Unmarshal
       {| tar.hdr := {| tar.Name := "mychart/sub/Chart.yaml" |};
          tar.body := body |} chart values
     = Ok (chart, values)).
Proof.
  split; [apply Match_chart_iff|].
  split; [apply Match_values_iff|].
  split; [apply Match_chart_total|].
  split; [apply Match_values_total|].
  split; [reflexivity|].
  split; [reflexivity|].
  intros Unmarshal body chart values. apply visit_other; reflexivity.
Qed.

(** C5: whenever extraction returns without error, the result it returns has
    a non-empty name and a non-empty values text. *)
Theorem result_well_formed Unmarshal Open filename v seen :
  getTarValues Unmarshal Open filename = (Ok v, seen) ->
  TarValues.Name v <> "" /\ TarValues.Values v <> "".
Proof.
  unfold getTarValues.
  destruct (Open filename) as [[err|entries ending]|err]; try discriminate.
  destruct (scan Unmarshal ending entries Chart.zero "") as [[[c vals]|err] seen'];
    [|discriminate].
  destruct (found c vals) eqn:Hf; [|discriminate].
  intros [= <- _]. apply found_true in Hf as [Hv Hn]. split; assumption.
Qed.

Lemma result_well_formed_witness :
  TarValues.Name
    {| TarValues.Name := "foo"; TarValues.Description := "bar";
       TarValues.Icon := "http://x/icon.png"; TarValues.TarfileName := "chart.tgz";
       TarValues.Values := Sample.valuesYaml |} <> "" /\
  TarValues.Values
    {| TarValues.Name := "foo"; TarValues.Description := "bar";
       TarValues.Icon := "http://x/icon.png"; TarValues.TarfileName := "chart.tgz";
       TarValues.Values := Sample.valuesYaml |} <> "".
Proof.
  apply (result_well_formed Sample.Unmarshal Sample.Open "chart.tgz" _
           [Sample.chartMember; Sample.valuesMember]).
  vm_compute. reflexivity.
Defined.

(** C4: the scan stops at the first member after which a non-empty chart
    name and a non-empty values text are both there.  When the loop passes
    the members of [p] and both pieces are there after the next member [e],
    extraction on the archive [p ++ e :: s] returns the result made of them,
    has read the members of [p ++ [e]] and none of [s], and returns what it
    returns on the archive cut after [e]. *)
Theorem early_exit Unmarshal Open Open' filename p e s ending ending'
        chart values chart' values' :
  Open filename = Ok (Archive (p ++ e :: s) ending) ->
  Open' filename = Ok (Archive (p ++ [e]) ending') ->
  passes Unmarshal p Chart.zero "" = Some (chart, values) ->
  visit Unmarshal e chart values = Ok (chart', values') ->
  found chart' values' = true ->
  getTarValues Unmarshal Open filename =
    (Ok {| TarValues.Name := Chart.Name chart';
           TarValues.Description := Chart.Description chart';
           TarValues.Icon := Chart.Icon chart';
           TarValues.TarfileName := filename;
           TarValues.Values := values' |}, p ++ [e]) /\
  getTarValues Unmarshal Open filename = getTarValues Unmarshal Open' filename.
Proof.
  intros Ho Ho' Hp Hv Hf.
  rewrite (stops_at _ _ _ _ _ _ _ _ _ _ _ Ho Hp Hv Hf).
  rewrite (stops_at _ _ _ _ _ [] _ _ _ _ _ Ho' Hp Hv Hf).
  split; reflexivity.
Qed.

Lemma early_exit_witness :
  getTarValues Sample.Unmarshal Sample.Open "tail.tgz" =
    (Ok {| TarValues.Name := "foo"; TarValues.Description := "bar";
           TarValues.Icon := "http://x/icon.png";
           TarValues.TarfileName := "tail.tgz";
           TarValues.Values := Sample.valuesYaml |},
     [Sample.readme; Sample.valuesMember; Sample.chartMember]) /\
  getTarValues Sample.Unmarshal Sample.Open "tail.tgz" =
    getTarValues Sample.Unmarshal
      (fun _ => Ok (Archive [Sample.readme; Sample.valuesMember;
                             Sample.chartMember] (libError "tar" "unexpected EOF")))
      "tail.tgz".
Proof.
  apply (early_exit Sample.Unmarshal Sample.Open _ "tail.tgz"
           [Sample.readme; Sample.valuesMember] Sample.chartMember
           [Sample.readme; Sample.readme] EOF (libError "tar" "unexpected EOF")
           Chart.zero Sample.valuesYaml Sample.fooChart Sample.valuesYaml);
    vm_compute; reflexivity.
Defined.

(** C6: when the loop reaches a member that matches the metadata pattern and
    whose content the YAML decoder refuses, extraction returns the decoder's
    error at once: the members after it are not read. *)
Theorem malformed_metadata_aborts Unmarshal Open filename p e s ending
        chart values data err :
  Open filename = Ok (Archive (p ++ e :: s) ending) ->
  passes Unmarshal p Chart.zero "" = Some (chart, values) ->
  path.Match "*/Chart.yaml" (nameOf e) = Ok true ->
  tar.body e = Ok data ->
  Unmarshal data = Err err ->
  getTarValues Unmarshal Open filename = (Err err, p ++ [e]).
Proof.
  intros Ho Hp Hm Hb Hu.
  apply (fails_at _ _ _ _ _ _ _ _ _ _ Ho Hp).
  rewrite (visit_chart _ _ _ _ Hm), Hb. unfold Ok. unfold Err in Hu.
  rewrite Hu. reflexivity.
Qed.

Lemma malformed_metadata_aborts_witness :
  getTarValues Sample.Unmarshal Sample.Open "broken.tgz" =
    (Err (libError "yaml" "did not find expected node content"),
     [Sample.readme; Sample.member "mychart/Chart.yaml" "{"]).
Proof.
  apply (malformed_metadata_aborts Sample.Unmarshal Sample.Open "broken.tgz"
           [Sample.readme] (Sample.member "mychart/Chart.yaml" "{")
           [Sample.valuesMember] EOF Chart.zero "" "{"
           (libError "yaml" "did not find expected node content"));
    vm_compute; reflexivity.
Defined.

(** C8: a metadata member without a name does not let the scan stop.  When
    the loop passes [p] and the chart name is empty after the next member [e]
    (whatever the values text is by then), the scan goes on; and when no
    later metadata member gives a name before the end of the archive,
    extraction reads every member and fails with the missing-member error:
    it returns no result with an empty name. *)
Theorem empty_name_keeps_scanning Unmarshal Open filename p e s c0 v0 c v :
  Open filename = Ok (Archive (p ++ e :: s) EOF) ->
  passes Unmarshal p Chart.zero "" = Some (c0, v0) ->
  visit Unmarshal e c0 v0 = Ok (c, v) ->
  Chart.Name c = "" ->
  (forall e', In e' s -> path.Match "*/Chart.yaml" (nameOf e') = Ok true ->
     exists data c', tar.body e' = Ok data /\ Unmarshal data = Ok c' /\
                     Chart.Name c' = "") ->
  (forall e', In e' s -> path.Match "*/values.yaml" (nameOf e') = Ok true ->
     exists data, tar.body e' = Ok data) ->
  found c v = false /\
  getTarValues Unmarshal Open filename =
    (Err (errors.New "Chart.yaml not found in archive"), p ++ e :: s).
Proof.
  intros Ho Hp Hv Hn Hcs Hvs.
  pose proof (found_no_name c v Hn) as Hf. split; [exact Hf|].
  destruct (passes_no_name Unmarshal s c v Hn Hcs Hvs) as (c' & v' & Hs & _).
  assert (passes Unmarshal (p ++ e :: s) Chart.zero "" = Some (c', v')) as Hall.
  { rewrite (passes_app _ _ _ _ _ _ _ Hp). simpl.
    unfold Ok in Hv. rewrite Hv, Hf. exact Hs. }
  exact (exhausted _ _ _ _ _ _ Ho Hall).
Qed.

Lemma empty_name_keeps_scanning_witness :
  found {| Chart.Description := "anonymous"; Chart.Name := ""; Chart.Icon := "" |}
        Sample.valuesYaml = false /\
  getTarValues Sample.Unmarshal Sample.Open "anonymous.tgz" =
    (Err (errors.New "Chart.yaml not found in archive"),
     [Sample.member "mychart/Chart.yaml" "description: anonymous";
      Sample.valuesMember; Sample.readme]).
Proof.
  apply (empty_name_keeps_scanning Sample.Unmarshal Sample.Open "anonymous.tgz"
           [Sample.member "mychart/Chart.yaml" "description: anonymous"]
           Sample.valuesMember [Sample.readme]
           {| Chart.Description := "anonymous"; Chart.Name := ""; Chart.Icon := "" |}
           "").
  - vm_compute; reflexivity.
  - vm_compute; reflexivity.
  - vm_compute; reflexivity.
  - reflexivity.
  - intros e' [<-|[ ]] Hm; vm_compute in Hm; discriminate.
  - intros e' [<-|[ ]] Hm; vm_compute in Hm; discriminate.
Defined.



(** C3: what the code does when the archive ends before both pieces are
    there.  Whatever the loop has captured by then (a chart with a name
    included), the error is the one message "Chart.yaml not found in
    archive": it does not tell a missing values file from a missing metadata
    file. *)
Theorem exhausted_message_is_fixed Unmarshal Open filename entries chart values :
  Open filename = Ok (Archive entries EOF) ->
  passes Unmarshal entries Chart.zero "" = Some (chart, values) ->
  getTarValues Unmarshal Open filename =
    (Err (errors.New "Chart.yaml not found in archive"), entries).
Proof. apply exhausted. Qed.

Lemma exhausted_message_is_fixed_witness :
  passes Sample.Unmarshal [Sample.chartMember] Chart.zero ""
    = Some (Sample.fooChart, "") /\
  getTarValues Sample.Unmarshal Sample.Open "chart-only.tgz" =
    (Err (errors.New "Chart.yaml not found in archive"), [Sample.chartMember]).
Proof.
  split; [vm_compute; reflexivity|].
  apply (exhausted_message_is_fixed Sample.Unmarshal Sample.Open "chart-only.tgz"
           [Sample.chartMember] Sample.fooChart "");
    vm_compute; reflexivity.
Defined.

(** The message after the loop is never returned: an error of [getTarValues]
    on an archive is the error the loop returned. *)
Lemma second_message_unreachable Unmarshal Open filename entries ending err seen :
  Open filename = Ok (Archive entries ending) ->
  getTarValues Unmarshal Open filename = (Err err, seen) ->
  scan Unmarshal ending entries Chart.zero "" = (Err err, seen).
Proof.
  intros Ho. rewrite (getTarValues_archive _ _ _ _ _ Ho).
  destruct (scan Unmarshal ending entries Chart.zero "") as [[[c v]|err'] seen'];
    [discriminate|].
  intros [= -> ->]. reflexivity.
Qed.

Local Abbreviation text := ("replicaCount: 1" +:+ String "010" "") (only parsing).
Local Abbreviation fooValues filename :=
  {| TarValues.Name := "foo"; TarValues.Description := "bar";
     TarValues.Icon := "http://x/icon.png";
     TarValues.TarfileName := filename;
     TarValues.Values := text |} (only parsing).

(** C1, amended: the success path.  Take an archive with a member
    [mychart/Chart.yaml] and a member [mychart/values.yaml], in which every
    member that matches the metadata pattern decodes to name "foo",
    description "bar" and icon "http://x/icon.png", and every member that
    matches the values pattern holds the bytes "replicaCount: 1" and a line
    feed.  Extraction succeeds with these three fields and with exactly those
    bytes as values, and the descriptor built from the result is named
    "foo-apb", displays "foo (helm bundle)", and has one plan "default",
    described as "Deploys helm chart foo", with the one parameter "values"
    whose default is those bytes. *)
Theorem success_path Unmarshal Open filename entries ending :
  Open filename = Ok (Archive entries ending) ->
  (exists e, In e entries /\ nameOf e = "mychart/Chart.yaml") ->
  (exists e, In e entries /\ nameOf e = "mychart/values.yaml") ->
  (forall e, In e entries -> path.Match "*/Chart.yaml" (nameOf e) = Ok true ->
     exists data, tar.body e = Ok data /\
       Unmarshal data = Ok {| Chart.Description := "bar"; Chart.Name := "foo";
                              Chart.Icon := "http://x/icon.png" |}) ->
  (forall e, In e entries -> path.Match "*/values.yaml" (nameOf e) = Ok true ->
     tar.body e = Ok text) ->
  (exists seen,
     getTarValues Unmarshal Open filename = (Ok (fooValues filename), seen)) /\
  apb.Spec.Name (NewSpec (fooValues filename)) = "foo-apb" /\
  apb.Spec.Metadata (NewSpec (fooValues filename)) !! "displayName"
    = Some (apb.str "foo (helm bundle)") /\
  exists plan parameter,
    apb.Spec.Plans (NewSpec (fooValues filename)) = [plan] /\
    apb.Plan.Name plan = "default" /\
    apb.Plan.Description plan = "Deploys helm chart foo" /\
    apb.Plan.Parameters plan = [parameter] /\
    apb.ParameterDescriptor.Name parameter = "values" /\
    apb.ParameterDescriptor.Default parameter = apb.str text.
Proof.
  intros Ho (ec & Hec & Hnc) (ev & Hev & Hnv) Hcs Hvs. split.
  - rewrite (getTarValues_archive _ _ _ _ _ Ho).
    destruct (finds_both Unmarshal ending
                {| Chart.Description := "bar"; Chart.Name := "foo";
                   Chart.Icon := "http://x/icon.png" |} text
                entries Chart.zero "") as [seen Hs];
      try discriminate; try reflexivity; try assumption.
    + right; reflexivity.
    + right; reflexivity.
    + intros _. exists ec. split; [exact Hec|]. rewrite Hnc. reflexivity.
    + intros _. exists ev. split; [exact Hev|]. rewrite Hnv. reflexivity.
    + rewrite Hs. exists seen. reflexivity.
  - split; [reflexivity|]. split; [reflexivity|].
    eexists; eexists. repeat (split; [reflexivity|]). reflexivity.
Qed.

Lemma success_path_witness :
  (exists seen,
     getTarValues Sample.Unmarshal Sample.Open "chart.tgz" =
       (Ok (fooValues "chart.tgz"), seen)) /\
  apb.Spec.Name (NewSpec (fooValues "chart.tgz")) = "foo-apb" /\
  apb.Spec.Metadata (NewSpec (fooValues "chart.tgz")) !! "displayName"
    = Some (apb.str "foo (helm bundle)") /\
  exists plan parameter,
    apb.Spec.Plans (NewSpec (fooValues "chart.tgz")) = [plan] /\
    apb.Plan.Name plan = "default" /\
    apb.Plan.Description plan = "Deploys helm chart foo" /\
    apb.Plan.Parameters plan = [parameter] /\
    apb.ParameterDescriptor.Name parameter = "values" /\
    apb.ParameterDescriptor.Default parameter = apb.str text.
Proof.
  apply (success_path Sample.Unmarshal Sample.Open "chart.tgz"
           [Sample.chartMember; Sample.valuesMember] EOF).
  - vm_compute; reflexivity.
  - exists Sample.chartMember. split; [left|]; reflexivity.
  - exists Sample.valuesMember. split; [right; left|]; reflexivity.
  - intros e [<-|[<-|[ ]]] Hm; vm_compute in Hm; try discriminate.
    exists Sample.fooYaml. split; reflexivity.
  - intros e [<-|[<-|[ ]]] Hm; vm_compute in Hm; try discriminate.
    reflexivity.
Defined.

(** C1 as it is worded, for every archive that contains the two entries,
    fails on this archive: it holds [mychart/Chart.yaml], decoding to "foo",
    "bar" and the icon, and [mychart/values.yaml] with the bytes
    "replicaCount: 1" and a line feed, after a member [other/values.yaml].
    The loop keeps the bytes of the first values member it meets and stops at
    the metadata member: extraction succeeds with the values "x: 1" and never
    reads [mychart/values.yaml]. *)
Lemma success_path_counterexample :
  (exists e data,
     In e [Sample.member "other/values.yaml" "x: 1"; Sample.chartMember;
           Sample.valuesMember] /\
     nameOf e = "mychart/Chart.yaml" /\ tar.body e = Ok data /\
     Sample.Unmarshal data =
       Ok {| Chart.Description := "bar"; Chart.Name := "foo";
             Chart.Icon := "http://x/icon.png" |}) /\
  (exists e,
     In e [Sample.member "other/values.yaml" "x: 1"; Sample.chartMember;
           Sample.valuesMember] /\
     nameOf e = "mychart/values.yaml" /\ tar.body e = Ok text) /\
  getTarValues Sample.Unmarshal
    (fun _ => Ok (Archive [Sample.member "other/values.yaml" "x: 1";
                           Sample.chartMember; Sample.valuesMember] EOF))
    "chart.tgz"
  = (Ok {| TarValues.Name := "foo"; TarValues.Description := "bar";
           TarValues.Icon := "http://x/icon.png";
           TarValues.TarfileName := "chart.tgz";
           TarValues.Values := "x: 1" |},
     [Sample.member "other/values.yaml" "x: 1"; Sample.chartMember]) /\
  ~ (exists seen,
       getTarValues Sample.Unmarshal
         (fun _ => Ok (Archive [Sample.member "other/values.yaml" "x: 1";
                                Sample.chartMember; Sample.valuesMember] EOF))
         "chart.tgz"
       = (Ok (fooValues "chart.tgz"), seen)).
Proof.
  split.
  { exists Sample.chartMember, Sample.fooYaml.
    split; [right; left; reflexivity|]. repeat split. }
  split.
  { exists Sample.valuesMember.
    split; [right; right; left; reflexivity|]. repeat split. }
  split; [vm_compute; reflexivity|].
  intros [seen H]. vm_compute in H. discriminate H.
Qed.

(** ** Further properties of the extractor *)

Section ExtractorMore.

Variable Unmarshal : string -> Result Chart.t.

Lemma scan_end_error ending chart values :
  ending <> EOF -> scan Unmarshal ending [] chart values = (Err ending, []).
Proof. intros H. destruct ending; simpl; [congruence | reflexivity..]. Qed.

(** One turn changes [chart] only by decoding a metadata member, and
    [values] only by reading a values member. *)
Lemma visit_provenance e chart values chart' values' :
  visit Unmarshal e chart values = inl (chart', values') ->
  (chart' = chart \/
     path.Match "*/Chart.yaml" (nameOf e) = Ok true /\
     exists data, tar.body e = Ok data /\ Unmarshal data = Ok chart') /\
  (values' = values \/
     path.Match "*/values.yaml" (nameOf e) = Ok true /\
     tar.body e = Ok values').
Proof.
  destruct (Match_chart_total (nameOf e)) as [[|] Hm].
  - rewrite (visit_chart _ _ _ _ Hm).
    destruct (tar.body e) as [data|err] eqn:Hb; [|discriminate].
    destruct (Unmarshal data) as [c|err] eqn:Hu; [|discriminate].
    intros [= <- <-]. split; [right | left; reflexivity].
    split; [exact Hm | exists data; split; [reflexivity | exact Hu]].
  - destruct (Match_values_total (nameOf e)) as [[|] Hm'].
    + rewrite (visit_values _ _ _ _ Hm').
      destruct (tar.body e) as [data|err] eqn:Hb; [|discriminate].
      intros [= <- <-]. split; [left; reflexivity | right].
      split; [exact Hm' | reflexivity].
    + rewrite (visit_other _ _ _ _ Hm Hm'). intros [= <- <-].
      split; left; reflexivity.
Qed.

Lemma scan_provenance ending entries chart values chart' values' seen :
  scan Unmarshal ending entries chart values = (Ok (chart', values'), seen) ->
  (chart' = chart \/
     exists e data, In e seen /\ path.Match "*/Chart.yaml" (nameOf e) = Ok true /\
                    tar.body e = Ok data /\ Unmarshal data = Ok chart') /\
  (values' = values \/
     exists e, In e seen /\ path.Match "*/values.yaml" (nameOf e) = Ok true /\
               tar.body e = Ok values').
Proof.
  revert chart values seen; induction entries as [|e rest IH];
    intros chart values seen; simpl.
  - destruct ending; discriminate.
  - destruct (visit Unmarshal e chart values) as [[c v]|err] eqn:Hv;
      [|discriminate].
    apply visit_provenance in Hv as [Hc Hv].
    assert (Hc1 : forall l, c = chart \/
              exists e' data, In e' (e :: l) /\
                path.Match "*/Chart.yaml" (nameOf e') = Ok true /\
                tar.body e' = Ok data /\ Unmarshal data = Ok c).
    { intros l. destruct Hc as [Hc|(Hm & data & Hb & Hu)]; [left; exact Hc|].
      right. exists e, data. repeat split; try assumption. left; reflexivity. }
    assert (Hv1 : forall l, v = values \/
              exists e', In e' (e :: l) /\
                path.Match "*/values.yaml" (nameOf e') = Ok true /\
                tar.body e' = Ok v).
    { intros l. destruct Hv as [Hv|(Hm & Hb)]; [left; exact Hv|].
      right. exists e. repeat split; try assumption. left; reflexivity. }
    destruct (found c v).
    + intros [= <- <- <-]. split; [apply Hc1 | apply Hv1].
    + destruct (scan Unmarshal ending rest c v) as [r seen'] eqn:Hs.
      intros [= -> <-]. destruct (IH _ _ _ Hs) as [Hc2 Hv2]. split.
      * destruct Hc2 as [->|(e' & data & Hin & H)]; [apply Hc1|].
        right. exists e', data. split; [right; exact Hin | exact H].
      * destruct Hv2 as [->|(e' & Hin & H)]; [apply Hv1|].
        right. exists e'. split; [right; exact Hin | exact H].
Qed.

(** A successful loop stopped right after the last member it read, and had
    passed the ones before. *)
Lemma scan_Ok_shape ending entries chart values chart' values' seen :
  scan Unmarshal ending entries chart values = (Ok (chart', values'), seen) ->
  exists p e c0 v0,
    seen = p ++ [e] /\
    passes Unmarshal p chart values = Some (c0, v0) /\
    visit Unmarshal e c0 v0 = Ok (chart', values') /\
    found chart' values' = true.
Proof.
  revert chart values seen; induction entries as [|e rest IH];
    intros chart values seen; simpl.
  - destruct ending; discriminate.
  - destruct (visit Unmarshal e chart values) as [[c v]|err] eqn:Hv;
      [|discriminate].
    destruct (found c v) eqn:Hf.
    + intros [= <- <- <-]. exists [], e, chart, values.
      repeat split; [exact Hv | exact Hf].
    + destruct (scan Unmarshal ending rest c v) as [r seen'] eqn:Hs.
      intros [= -> <-].
      destruct (IH _ _ _ Hs) as (p & e' & c0 & v0 & -> & Hp & Hv' & Hf').
      exists (e :: p), e', c0, v0. simpl. rewrite Hv, Hf.
      repeat split; assumption.
Qed.

(** A member that matches neither pattern does not change what the loop
    returns. *)
Lemma scan_skip ending p e s chart values :
  path.Match "*/Chart.yaml" (nameOf e) = Ok false ->
  path.Match "*/values.yaml" (nameOf e) = Ok false ->
  found chart values = false ->
  fst (scan Unmarshal ending (p ++ e :: s) chart values)
  = fst (scan Unmarshal ending (p ++ s) chart values).
Proof.
  intros Hc Hv. revert chart values; induction p as [|a p IH];
    intros chart values Hf; simpl.
  - rewrite (visit_other _ _ _ _ Hc Hv). unfold Ok. rewrite Hf.
    destruct (scan Unmarshal ending s chart values). reflexivity.
  - destruct (visit Unmarshal a chart values) as [[c v]|err]; [|reflexivity].
    destruct (found c v) eqn:Hf'; [reflexivity|].
    specialize (IH c v Hf').
    destruct (scan Unmarshal ending (p ++ e :: s) c v),
             (scan Unmarshal ending (p ++ s) c v).
    exact IH.
Qed.

End ExtractorMore.

(** The loop asks the decoder about the bodies of metadata members only. *)
Lemma scan_decoder (U U' : string -> Result Chart.t) ending entries chart values :
  (forall e data, In e entries ->
     path.Match "*/Chart.yaml" (nameOf e) = Ok true ->
     tar.body e = Ok data -> U data = U' data) ->
  scan U ending entries chart values = scan U' ending entries chart values.
Proof.
  revert chart values; induction entries as [|e rest IH];
    intros chart values H; simpl; [reflexivity|].
  assert (visit U e chart values = visit U' e chart values) as ->.
  { destruct (Match_chart_total (nameOf e)) as [[|] Hm].
    - rewrite !(visit_chart _ _ _ _ Hm).
      destruct (tar.body e) as [data|err] eqn:Hb; [|reflexivity].
      rewrite (H e data (or_introl eq_refl) Hm Hb). reflexivity.
    - destruct (Match_values_total (nameOf e)) as [[|] Hm'].
      + rewrite !(visit_values _ _ _ _ Hm'). reflexivity.
      + rewrite !(visit_other _ _ _ _ Hm Hm'). reflexivity. }
  destruct (visit U' e chart values) as [[c v]|err]; [|reflexivity].
  destruct (found c v); [reflexivity|].
  rewrite IH; [reflexivity|]. intros e' data Hin. apply H. right; exact Hin.
Qed.

(** X1: the members [getTarValues] reads are an initial part of the archive,
    in stream order, whatever it returns. *)
Theorem reads_a_prefix Unmarshal Open filename entries ending r seen :
  Open filename = Ok (Archive entries ending) ->
  getTarValues Unmarshal Open filename = (r, seen) ->
  exists unread, entries = seen ++ unread.
Proof.
  intros Ho. rewrite (getTarValues_archive _ _ _ _ _ Ho).
  destruct (scan Unmarshal ending entries Chart.zero "") as [[[c v]|err] seen']
    eqn:Hs; intros [= _ <-]; exact (scan_seen _ _ _ _ _ _ _ Hs).
Qed.

Lemma reads_a_prefix_witness :
  exists unread,
    [Sample.readme; Sample.valuesMember; Sample.chartMember; Sample.readme;
     Sample.readme]
    = [Sample.readme; Sample.valuesMember; Sample.chartMember] ++ unread.
Proof.
  apply (reads_a_prefix Sample.Unmarshal Sample.Open "tail.tgz" _ EOF
           (Ok {| TarValues.Name := "foo"; TarValues.Description := "bar";
                  TarValues.Icon := "http://x/icon.png";
                  TarValues.TarfileName := "tail.tgz";
                  TarValues.Values := Sample.valuesYaml |}));
    vm_compute; reflexivity.
Defined.

(** X2: when the stream breaks (an error other than io.EOF from [tr.Next])
    while the loop is still looking, [getTarValues] returns that very error,
    after reading every member before the break. *)
Theorem corrupt_archive_error Unmarshal Open filename entries ending chart values :
  Open filename = Ok (Archive entries ending) ->
  ending <> EOF ->
  passes Unmarshal entries Chart.zero "" = Some (chart, values) ->
  getTarValues Unmarshal Open filename = (Err ending, entries).
Proof.
  intros Ho He Hp. rewrite (getTarValues_archive _ _ _ _ _ Ho).
  pose proof (scan_passes Unmarshal ending entries [] _ _ _ _ Hp) as Hs.
  rewrite (scan_end_error _ _ _ _ He) in Hs. rewrite !app_nil_r in Hs.
  rewrite Hs. reflexivity.
Qed.

Lemma corrupt_archive_error_witness :
  getTarValues Sample.Unmarshal Fixture.Open "cut.tgz"
  = (Err Fixture.truncated, [Sample.readme; Sample.chartMember]).
Proof.
  apply (corrupt_archive_error Sample.Unmarshal Fixture.Open "cut.tgz"
           [Sample.readme; Sample.chartMember] Fixture.truncated
           Sample.fooChart "").
  - vm_compute; reflexivity.
  - discriminate.
  - vm_compute; reflexivity.
Defined.

(** X3: when the loop reaches a member that matches one of the two patterns
    and whose body cannot be read, [getTarValues] returns the read error at
    once; the decoder's answer plays no part and no later member is read. *)
Theorem unreadable_member_aborts Unmarshal Open filename p e s ending
        chart values err :
  Open filename = Ok (Archive (p ++ e :: s) ending) ->
  passes Unmarshal p Chart.zero "" = Some (chart, values) ->
  path.Match "*/Chart.yaml" (nameOf e) = Ok true \/
  path.Match "*/values.yaml" (nameOf e) = Ok true ->
  tar.body e = Err err ->
  getTarValues Unmarshal Open filename = (Err err, p ++ [e]).
Proof.
  intros Ho Hp Hm Hb. apply (fails_at _ _ _ _ _ _ _ _ _ _ Ho Hp).
  destruct Hm as [Hm|Hm].
  - rewrite (visit_chart _ _ _ _ Hm), Hb. reflexivity.
  - rewrite (visit_values _ _ _ _ Hm), Hb. reflexivity.
Qed.

Lemma unreadable_member_aborts_witness :
  getTarValues Sample.Unmarshal Fixture.Open "unreadable.tgz"
  = (Err Fixture.truncated,
     [Sample.chartMember;
      {| tar.hdr := {| tar.Name := "mychart/values.yaml" |};
         tar.body := Err Fixture.truncated |}]).
Proof.
  apply (unreadable_member_aborts Sample.Unmarshal Fixture.Open "unreadable.tgz"
           [Sample.chartMember]
           {| tar.hdr := {| tar.Name := "mychart/values.yaml" |};
              tar.body := Err Fixture.truncated |}
           [Sample.readme] EOF Sample.fooChart "" Fixture.truncated).
  - vm_compute; reflexivity.
  - vm_compute; reflexivity.
  - right. vm_compute; reflexivity.
  - reflexivity.
Defined.

(** X4: where a result comes from.  When [getTarValues] succeeds, the values
    text is, byte for byte, the body of a member it read whose name matches
    the values pattern; name, description and icon are what the decoder made
    of the body of a member it read whose name matches the metadata pattern;
    and the tar file name is the argument. *)
Theorem result_provenance Unmarshal Open filename v seen :
  getTarValues Unmarshal Open filename = (Ok v, seen) ->
  TarValues.TarfileName v = filename /\
  (exists e, In e seen /\ path.Match "*/values.yaml" (nameOf e) = Ok true /\
             tar.body e = Ok (TarValues.Values v)) /\
  (exists e data c,
     In e seen /\ path.Match "*/Chart.yaml" (nameOf e) = Ok true /\
     tar.body e = Ok data /\ Unmarshal data = Ok c /\
     TarValues.Name v = Chart.Name c /\
     TarValues.Description v = Chart.Description c /\
     TarValues.Icon v = Chart.Icon c).
Proof.
  unfold getTarValues.
  destruct (Open filename) as [[err|entries ending]|err]; try discriminate.
  destruct (scan Unmarshal ending entries Chart.zero "") as [[[c vals]|err] seen']
    eqn:Hs; [|discriminate].
  destruct (found c vals) eqn:Hf; [|discriminate].
  intros [= <- <-]. apply found_true in Hf as [Hv Hn].
  destruct (scan_provenance _ _ _ _ _ _ _ _ Hs) as [Hc Hvs].
  split; [reflexivity|]. split.
  - destruct Hvs as [->|H]; [congruence | exact H].
  - destruct Hc as [->|(e & data & Hin & Hm & Hb & Hu)]; [simpl in Hn; congruence|].
    exists e, data, c. repeat split; assumption.
Qed.

Lemma result_provenance_witness :
  TarValues.TarfileName Fixture.fooValues = "chart.tgz" /\
  (exists e, In e [Sample.chartMember; Sample.valuesMember] /\
             path.Match "*/values.yaml" (nameOf e) = Ok true /\
             tar.body e = Ok (TarValues.Values Fixture.fooValues)) /\
  (exists e data c,
     In e [Sample.chartMember; Sample.valuesMember] /\
     path.Match "*/Chart.yaml" (nameOf e) = Ok true /\
     tar.body e = Ok data /\ Sample.Unmarshal data = Ok c /\
     TarValues.Name Fixture.fooValues = Chart.Name c /\
     TarValues.Description Fixture.fooValues = Chart.Description c /\
     TarValues.Icon Fixture.fooValues = Chart.Icon c).
Proof.
  apply (result_provenance Sample.Unmarshal Sample.Open "chart.tgz").
  vm_compute; reflexivity.
Defined.

(** X5: the order of the members does not matter.  In an archive that has at
    least one member for each pattern, whose metadata members all decode to
    one chart with a name and whose values members all hold one non-empty
    text, extraction succeeds with that chart and that text, wherever the
    members stand and whatever else is around them. *)
Theorem success_in_any_order Unmarshal Open filename entries ending c0 vals :
  Open filename = Ok (Archive entries ending) ->
  Chart.Name c0 <> "" -> vals <> "" ->
  (exists e, In e entries /\ path.Match "*/Chart.yaml" (nameOf e) = Ok true) ->
  (exists e, In e entries /\ path.Match "*/values.yaml" (nameOf e) = Ok true) ->
  (forall e, In e entries -> path.Match "*/Chart.yaml" (nameOf e) = Ok true ->
     exists data, tar.body e = Ok data /\ Unmarshal data = Ok c0) ->
  (forall e, In e entries -> path.Match "*/values.yaml" (nameOf e) = Ok true ->
     tar.body e = Ok vals) ->
  exists seen,
    getTarValues Unmarshal Open filename =
      (Ok {| TarValues.Name := Chart.Name c0;
             TarValues.Description := Chart.Description c0;
             TarValues.Icon := Chart.Icon c0;
             TarValues.TarfileName := filename;
             TarValues.Values := vals |}, seen).
Proof.
  intros Ho Hn Hv Hec Hev Hcs Hvs. rewrite (getTarValues_archive _ _ _ _ _ Ho).
  destruct (finds_both Unmarshal ending c0 vals entries Chart.zero "" Hn Hv)
    as [seen Hs]; try reflexivity; try assumption; try (right; reflexivity);
    try (intros _; assumption).
  rewrite Hs. exists seen. reflexivity.
Qed.

Lemma success_in_any_order_witness :
  exists seen,
    getTarValues Sample.Unmarshal Fixture.Open "swapped.tgz" =
      (Ok {| TarValues.Name := "foo"; TarValues.Description := "bar";
             TarValues.Icon := "http://x/icon.png";
             TarValues.TarfileName := "swapped.tgz";
             TarValues.Values := Sample.valuesYaml |}, seen).
Proof.
  apply (success_in_any_order Sample.Unmarshal Fixture.Open "swapped.tgz"
           [Sample.valuesMember; Sample.readme; Sample.chartMember] EOF
           Sample.fooChart Sample.valuesYaml).
  - vm_compute; reflexivity.
  - discriminate.
  - discriminate.
  - exists Sample.chartMember. split; [right; right; left|]; reflexivity.
  - exists Sample.valuesMember. split; [left|]; reflexivity.
  - intros e [<-|[<-|[<-|[ ]]]] Hm; vm_compute in Hm; try discriminate.
    exists Sample.fooYaml. split; reflexivity.
  - intros e [<-|[<-|[<-|[ ]]]] Hm; vm_compute in Hm; try discriminate.
    reflexivity.
Defined.

(** X6: every success is an early exit.  When [getTarValues] succeeds, the
    last member it read is the one after which both pieces were there for the
    first time: the loop had passed all the members before it without
    stopping. *)
Theorem success_stops_at_first Unmarshal Open filename entries ending v seen :
  Open filename = Ok (Archive entries ending) ->
  getTarValues Unmarshal Open filename = (Ok v, seen) ->
  exists p e c0 v0 chart values,
    seen = p ++ [e] /\
    passes Unmarshal p Chart.zero "" = Some (c0, v0) /\
    visit Unmarshal e c0 v0 = Ok (chart, values) /\
    found chart values = true /\
    TarValues.Name v = Chart.Name chart /\ TarValues.Values v = values.
Proof.
  intros Ho. rewrite (getTarValues_archive _ _ _ _ _ Ho).
  destruct (scan Unmarshal ending entries Chart.zero "") as [[[c vals]|err] seen']
    eqn:Hs; [|discriminate].
  intros [= <- <-].
  destruct (scan_Ok_shape _ _ _ _ _ _ _ _ Hs) as (p & e & c0 & v0 & H1 & H2 & H3 & H4).
  exists p, e, c0, v0, c, vals. repeat split; assumption.
Qed.

Lemma success_stops_at_first_witness :
  exists p e c0 v0 chart values,
    [Sample.readme; Sample.valuesMember; Sample.chartMember] = p ++ [e] /\
    passes Sample.Unmarshal p Chart.zero "" = Some (c0, v0) /\
    visit Sample.Unmarshal e c0 v0 = Ok (chart, values) /\
    found chart values = true /\
    TarValues.Name
      {| TarValues.Name := "foo"; TarValues.Description := "bar";
         TarValues.Icon := "http://x/icon.png"; TarValues.TarfileName := "tail.tgz";
         TarValues.Values := Sample.valuesYaml |} = Chart.Name chart /\
    TarValues.Values
      {| TarValues.Name := "foo"; TarValues.Description := "bar";
         TarValues.Icon := "http://x/icon.png"; TarValues.TarfileName := "tail.tgz";
         TarValues.Values := Sample.valuesYaml |} = values.
Proof.
  apply (success_stops_at_first Sample.Unmarshal Sample.Open "tail.tgz"
           [Sample.readme; Sample.valuesMember; Sample.chartMember; Sample.readme;
            Sample.readme] EOF);
    vm_compute; reflexivity.
Defined.

(** X7: members that match neither pattern are transparent.  Taking such a
    member out of the archive, anywhere, does not change the result or the
    error of the extraction. *)
Theorem unrelated_member_ignored Unmarshal Open Open' filename p e s ending :
  Open filename = Ok (Archive (p ++ e :: s) ending) ->
  Open' filename = Ok (Archive (p ++ s) ending) ->
  path.Match "*/Chart.yaml" (nameOf e) = Ok false ->
  path.Match "*/values.yaml" (nameOf e) = Ok false ->
  fst (getTarValues Unmarshal Open filename)
  = fst (getTarValues Unmarshal Open' filename).
Proof.
  intros Ho Ho' Hc Hv.
  rewrite (getTarValues_archive _ _ _ _ _ Ho), (getTarValues_archive _ _ _ _ _ Ho').
  pose proof (scan_skip Unmarshal ending p e s Chart.zero "" Hc Hv eq_refl) as H.
  destruct (scan Unmarshal ending (p ++ e :: s) Chart.zero "") as [r1 s1],
           (scan Unmarshal ending (p ++ s) Chart.zero "") as [r2 s2].
  simpl in H. subst r2. destruct r1 as [[c v]|err]; reflexivity.
Qed.

Lemma unrelated_member_ignored_witness :
  fst (getTarValues Sample.Unmarshal Fixture.Open "padded.tgz")
  = fst (getTarValues Sample.Unmarshal
           (fun _ => Ok (Archive [Sample.chartMember; Sample.valuesMember] EOF))
           "padded.tgz").
Proof.
  apply (unrelated_member_ignored Sample.Unmarshal Fixture.Open _ "padded.tgz"
           [Sample.chartMember] Sample.readme [Sample.valuesMember] EOF);
    vm_compute; reflexivity.
Defined.

(** X8: the values file is never parsed.  Two YAML decoders that agree on the
    bodies of the members matching the metadata pattern give the same
    extraction, to the last member read: the decoder is asked about nothing
    else. *)
Theorem decoder_only_on_metadata (U U' : string -> Result Chart.t)
        Open filename entries ending :
  Open filename = Ok (Archive entries ending) ->
  (forall e data, In e entries ->
     path.Match "*/Chart.yaml" (nameOf e) = Ok true ->
     tar.body e = Ok data -> U data = U' data) ->
  getTarValues U Open filename = getTarValues U' Open filename.
Proof.
  intros Ho H. unfold getTarValues. rewrite Ho. unfold Ok at 1 3. cbv iota.
  rewrite (scan_decoder U U' ending entries Chart.zero "" H). reflexivity.
Qed.

Lemma decoder_only_on_metadata_witness :
  getTarValues Sample.Unmarshal Sample.Open "chart.tgz"
  = getTarValues
      (fun data => if String.eqb data Sample.fooYaml then Ok Sample.fooChart
                   else Err (libError "yaml" "cannot decode"))
      Sample.Open "chart.tgz".
Proof.
  apply (decoder_only_on_metadata _ _ Sample.Open "chart.tgz"
           [Sample.chartMember; Sample.valuesMember] EOF).
  - vm_compute; reflexivity.
  - intros e data [<-|[<-|[ ]]] Hm Hb; vm_compute in Hm; try discriminate.
    injection Hb as <-. vm_compute; reflexivity.
Defined.

(** ** The descriptor, once more *)

(** X9: the descriptor carries the name, the description, the icon and the
    values text, and nothing of the tar file name: two inputs give the same
    descriptor exactly when they agree on those four fields. *)
Theorem NewSpec_eq_iff (v1 v2 : TarValues.t) :
  NewSpec v1 = NewSpec v2 <->
  TarValues.Name v1 = TarValues.Name v2 /\
  TarValues.Description v1 = TarValues.Description v2 /\
  TarValues.Icon v1 = TarValues.Icon v2 /\
  TarValues.Values v1 = TarValues.Values v2.
Proof.
  split.
  - intros H.
    pose proof (f_equal apb.Spec.Description H) as Hd.
    pose proof (f_equal (fun s => apb.Spec.Metadata s !! "imageUrl") H) as Hi.
    pose proof (f_equal apb.Spec.Plans H) as Hp.
    cbn [NewSpec apb.Spec.Description apb.Spec.Plans] in Hd, Hp.
    assert (Hicon : forall v, apb.Spec.Metadata (NewSpec v) !! "imageUrl"
                               = Some (apb.str (TarValues.Icon v))).
    { intros v. unfold NewSpec; cbn [apb.Spec.Metadata].
      rewrite lookup_insert_ne by discriminate. apply lookup_insert_eq. }
    cbv beta in Hi. rewrite !Hicon in Hi.
    injection Hp as Hn Hv. rewrite !append_nil_r in Hn. injection Hi as Hi.
    repeat split; assumption.
  - destruct v1, v2. simpl. intros (-> & -> & -> & ->). reflexivity.
Qed.

(** ** The output files and [run] *)

Section ProgramFacts.

Variable Unmarshal : string -> Result Chart.t.
Variable Open : string -> Result File.
Variable Marshal : apb.Spec.t -> Result string.
Variable fl : os.Faults.

Lemma append_assoc (a b c : string) : (a +:+ b) +:+ c = a +:+ b +:+ c.
Proof. induction a; simpl; congruence. Qed.

Lemma Parse_dockerfileTemplate :
  template.Parse dockerfileTemplate =
    Ok [template.TextNode dockerfileHead; template.FieldNode "TarfileName";
        template.TextNode dockerfileTail].
Proof. vm_compute. reflexivity. Qed.

Lemma world_eq (w w' : World) :
  files w = files w' -> stdout w = stdout w' -> w = w'.
Proof. destruct w, w'; simpl; intros -> ->; reflexivity. Qed.

(** What [writeDockerfile] does, by the faults on its file. *)
Lemma writeDockerfile_cases v w :
  writeDockerfile fl v w =
    match os.create fl dockerfile with
    | Some err => (Some err, w)
    | None =>
        match os.write fl dockerfile with
        | Some err => (Some err, withFile dockerfile "" w)
        | None => (None, withFile dockerfile (dockerfileFor (TarValues.TarfileName v)) w)
        end
    end.
Proof.
  unfold writeDockerfile. rewrite Parse_dockerfileTemplate. unfold Ok at 1.
  cbv iota. unfold os.Create.
  destruct (os.create fl dockerfile) as [err|]; [reflexivity|].
  unfold Ok. cbn [template.Execute]. unfold os.Write.
  destruct (os.write fl dockerfile) as [err|]; [reflexivity|].
  change (template.field v "TarfileName") with (Some (TarValues.TarfileName v)).
  cbv iota beta. f_equal. apply world_eq; [|reflexivity].
  cbn [files]. rewrite !lookup_insert_eq. cbn [default from_option].
  rewrite !insert_insert_eq. unfold dockerfileFor, withFile, id. cbn [files].
  change ("" +:+ dockerfileHead) with dockerfileHead.
  rewrite append_assoc. reflexivity.
Qed.

(** What [writeApbYaml] does, by the encoder's answer and the faults. *)
Lemma writeApbYaml_cases v w :
  writeApbYaml Marshal fl v w =
    match Marshal (NewSpec v) with
    | inr err => (Some err, w)
    | inl data =>
        match os.create fl apbYml with
        | Some err => (Some err, w)
        | None =>
            match os.write fl apbYml with
            | Some err => (Some err, withFile apbYml "" w)
            | None => (None, withFile apbYml data w)
            end
        end
    end.
Proof.
  unfold writeApbYaml. destruct (Marshal (NewSpec v)) as [data|err]; [|reflexivity].
  unfold os.Create. destruct (os.create fl apbYml) as [err|]; [reflexivity|].
  unfold Ok, os.Write. destruct (os.write fl apbYml) as [err|]; [reflexivity|].
  f_equal. apply world_eq; [|reflexivity].
  cbn [files]. rewrite lookup_insert_eq, insert_insert_eq. reflexivity.
Qed.

Lemma fileExists_cases w :
  fileExists fl w =
    match os.Stat fl w apbYml with
    | None => Ok true
    | Some err =>
        if os.IsNotExist err
        then match os.Stat fl w dockerfile with
             | None => Ok true
             | Some err' => if os.IsNotExist err' then Ok false else Err err'
             end
        else Err err
    end.
Proof.
  unfold fileExists. simpl.
  destruct (os.Stat fl w apbYml) as [err|]; [|reflexivity].
  destruct (os.IsNotExist err); simpl; [|reflexivity].
  destruct (os.Stat fl w dockerfile) as [err'|]; [|reflexivity].
  destruct (os.IsNotExist err'); reflexivity.
Qed.

Lemma Stat_honest w name :
  honestStat fl ->
  match os.Stat fl w name with
  | None => is_Some (files w !! name)
  | Some err => if os.IsNotExist err then files w !! name = None else True
  end.
Proof.
  intros Hh. unfold os.Stat. destruct (os.stat fl name) as [err|] eqn:Hs.
  - rewrite (Hh _ _ Hs). exact I.
  - destruct (files w !! name) as [data|]; [eauto | reflexivity].
Qed.

Lemma run_cases force filename w :
  run Unmarshal Open Marshal fl force filename w =
    if force then work Unmarshal Open Marshal fl filename w
    else match fileExists fl w with
         | inr err => fail err "could not get values from helm chart" w
         | inl true =>
             (Printf ("use --force to overwrite existing %s and/or %s" +:+ LF)
                     [dockerfile; apbYml] w, Some 1)
         | inl false => work Unmarshal Open Marshal fl filename w
         end.
Proof. destruct force; reflexivity. Qed.

(** [work] writes to its two files only. *)
Lemma work_frame filename w name :
  name <> apbYml -> name <> dockerfile ->
  files (fst (work Unmarshal Open Marshal fl filename w)) !! name
  = files w !! name.
Proof.
  intros Ha Hd. unfold work.
  destruct (fst (getTarValues Unmarshal Open filename)) as [v|err]; [|reflexivity].
  rewrite writeApbYaml_cases.
  destruct (Marshal (NewSpec v)) as [data|err]; [|reflexivity].
  destruct (os.create fl apbYml) as [err|]; [reflexivity|].
  destruct (os.write fl apbYml) as [err|].
  { simpl. rewrite lookup_insert_ne by congruence. reflexivity. }
  rewrite writeDockerfile_cases.
  destruct (os.create fl dockerfile) as [err|].
  { simpl. rewrite lookup_insert_ne by congruence. reflexivity. }
  destruct (os.write fl dockerfile) as [err|]; simpl;
    rewrite !lookup_insert_ne by congruence; reflexivity.
Qed.

End ProgramFacts.

Lemma getTarValues_TarfileName Unmarshal Open filename v :
  fst (getTarValues Unmarshal Open filename) = Ok v ->
  TarValues.TarfileName v = filename.
Proof.
  unfold getTarValues.
  destruct (Open filename) as [[err|entries ending]|err]; try discriminate.
  destruct (scan Unmarshal ending entries Chart.zero "") as [[[c vals]|err] seen];
    [|discriminate].
  destruct (found c vals); [|discriminate].
  intros [= <-]. reflexivity.
Qed.

Lemma fail_files err msg w : files (fst (fail err msg w)) = files w.
Proof. reflexivity. Qed.

(** X10: [fileExists] answers true exactly when apb.yml or Dockerfile is in
    the working directory, and gives no error, when the system lets it look
    at both. *)
Theorem fileExists_sees_either fl w :
  os.stat fl "apb.yml" = None -> os.stat fl "Dockerfile" = None ->
  (exists b, fileExists fl w = Ok b) /\
  (fileExists fl w = Ok true <->
   is_Some (files w !! "apb.yml") \/ is_Some (files w !! "Dockerfile")).
Proof.
  intros Ha Hd. rewrite fileExists_cases. unfold os.Stat, apbYml, dockerfile.
  rewrite Ha, Hd.
  destruct (files w !! "apb.yml") as [a|] eqn:Ea.
  { split; [eauto|]. split; [intros _; left; eauto | reflexivity]. }
  simpl.
  destruct (files w !! "Dockerfile") as [d|] eqn:Ed.
  { split; [eauto|]. split; [intros _; right; eauto | reflexivity]. }
  simpl. split; [eauto|]. split; [discriminate|].
  intros [[x Hx]|[x Hx]]; discriminate.
Qed.

Lemma fileExists_sees_either_witness :
  (exists b, fileExists Fixture.noFaults Fixture.usedDir = Ok b) /\
  (fileExists Fixture.noFaults Fixture.usedDir = Ok true <->
   is_Some (files Fixture.usedDir !! "apb.yml") \/
   is_Some (files Fixture.usedDir !! "Dockerfile")).
Proof.
  apply (fileExists_sees_either Fixture.noFaults Fixture.usedDir); reflexivity.
Defined.

(** X11: when looking at apb.yml fails for another reason than its absence,
    [fileExists] returns that error without looking at Dockerfile, and [run]
    without [--force] prints the error and "could not get values from helm
    chart", exits with status 1 and writes nothing; the archive plays no
    part. *)
Theorem run_stat_error Unmarshal Open Marshal fl filename w err :
  os.stat fl "apb.yml" = Some err ->
  os.IsNotExist err = false ->
  fileExists fl w = Err err /\
  run Unmarshal Open Marshal fl false filename w =
    ({| files := files w;
        stdout := (stdout w +:+ Error err +:+ LF)
                  +:+ "could not get values from helm chart" +:+ LF |}, Some 1).
Proof.
  intros Hs Hn.
  assert (fileExists fl w = Err err) as Hf.
  { rewrite fileExists_cases. unfold os.Stat, apbYml. rewrite Hs, Hn.
    reflexivity. }
  split; [exact Hf|]. rewrite run_cases, Hf. reflexivity.
Qed.

Lemma run_stat_error_witness :
  fileExists Fixture.statDenied Fixture.usedDir = Err Fixture.denied /\
  run Sample.Unmarshal Fixture.Open Fixture.Marshal Fixture.statDenied false
      "plain.tgz" Fixture.usedDir =
    ({| files := files Fixture.usedDir;
        stdout := (stdout Fixture.usedDir +:+ Error Fixture.denied +:+ LF)
                  +:+ "could not get values from helm chart" +:+ LF |}, Some 1).
Proof.
  apply (run_stat_error Sample.Unmarshal Fixture.Open Fixture.Marshal
           Fixture.statDenied "plain.tgz" Fixture.usedDir Fixture.denied);
    reflexivity.
Defined.

(** X12: when the file can be created and written, [writeDockerfile] leaves
    a Dockerfile that is the template with the tar file name, as it is, in
    the place of the action; what the file held before is gone, and nothing
    else changes. *)
Theorem writeDockerfile_content fl v w :
  os.create fl "Dockerfile" = None -> os.write fl "Dockerfile" = None ->
  writeDockerfile fl v w =
    (None, withFile "Dockerfile" (dockerfileFor (TarValues.TarfileName v)) w).
Proof.
  intros Hc Hw. rewrite writeDockerfile_cases. unfold dockerfile.
  rewrite Hc, Hw. reflexivity.
Qed.

Lemma writeDockerfile_content_witness :
  writeDockerfile Fixture.noFaults Fixture.fooValues Fixture.usedDir =
    (None, withFile "Dockerfile" (dockerfileFor "chart.tgz") Fixture.usedDir).
Proof.
  apply (writeDockerfile_content Fixture.noFaults Fixture.fooValues
           Fixture.usedDir); reflexivity.
Defined.

(** X13: when the descriptor can be encoded and the file created and
    written, [writeApbYaml] leaves an apb.yml that holds exactly the encoding
    of [NewSpec v], and changes nothing else. *)
Theorem writeApbYaml_content Marshal fl v w data :
  Marshal (NewSpec v) = Ok data ->
  os.create fl "apb.yml" = None -> os.write fl "apb.yml" = None ->
  writeApbYaml Marshal fl v w = (None, withFile "apb.yml" data w).
Proof.
  intros Hm Hc Hw. rewrite writeApbYaml_cases. unfold apbYml, Ok in *.
  rewrite Hm, Hc, Hw. reflexivity.
Qed.

Lemma writeApbYaml_content_witness :
  writeApbYaml Fixture.Marshal Fixture.noFaults Fixture.fooValues Fixture.usedDir
  = (None, withFile "apb.yml" ("name: foo-apb" +:+ LF) Fixture.usedDir).
Proof.
  apply (writeApbYaml_content Fixture.Marshal Fixture.noFaults Fixture.fooValues
           Fixture.usedDir); reflexivity.
Defined.

(** X14: [run] touches no file but apb.yml and Dockerfile: every other file
    of the working directory is after the run what it was before, whatever
    the flag, the archive, the encoder and the faults. *)
Theorem run_touches_only_outputs Unmarshal Open Marshal fl force filename w name :
  name <> "apb.yml" -> name <> "Dockerfile" ->
  files (fst (run Unmarshal Open Marshal fl force filename w)) !! name
  = files w !! name.
Proof.
  intros Ha Hd. rewrite run_cases.
  destruct force; [apply work_frame; assumption|].
  destruct (fileExists fl w) as [[|]|err];
    [reflexivity | apply work_frame; assumption | reflexivity].
Qed.

Lemma run_touches_only_outputs_witness :
  files (fst (run Sample.Unmarshal Fixture.Open Fixture.Marshal Fixture.noFaults
                  true "plain.tgz" Fixture.usedDir)) !! "notes.txt"
  = files Fixture.usedDir !! "notes.txt".
Proof.
  apply (run_touches_only_outputs Sample.Unmarshal Fixture.Open Fixture.Marshal
           Fixture.noFaults true "plain.tgz" Fixture.usedDir "notes.txt");
    discriminate.
Defined.

(** X15: without [--force], [run] overwrites nothing.  When apb.yml or
    Dockerfile is already there, the files of the working directory are left
    as they are and the run exits with status 1, whatever the archive
    holds. *)
Theorem run_keeps_existing_files Unmarshal Open Marshal fl filename w :
  honestStat fl ->
  is_Some (files w !! "apb.yml") \/ is_Some (files w !! "Dockerfile") ->
  files (fst (run Unmarshal Open Marshal fl false filename w)) = files w /\
  snd (run Unmarshal Open Marshal fl false filename w) = Some 1.
Proof.
  intros Hh He. rewrite run_cases, fileExists_cases.
  pose proof (Stat_honest fl w apbYml Hh) as Ha.
  pose proof (Stat_honest fl w dockerfile Hh) as Hd.
  destruct (os.Stat fl w apbYml) as [err|]; [|split; reflexivity].
  destruct (os.IsNotExist err); [|split; reflexivity].
  destruct (os.Stat fl w dockerfile) as [err'|]; [|split; reflexivity].
  destruct (os.IsNotExist err'); [|split; reflexivity].
  unfold apbYml in Ha. unfold dockerfile in Hd.
  destruct He as [[x Hx]|[x Hx]]; congruence.
Qed.

Lemma run_keeps_existing_files_witness :
  files (fst (run Sample.Unmarshal Fixture.Open Fixture.Marshal Fixture.noFaults
                  false "plain.tgz" Fixture.usedDir)) = files Fixture.usedDir /\
  snd (run Sample.Unmarshal Fixture.Open Fixture.Marshal Fixture.noFaults
           false "plain.tgz" Fixture.usedDir) = Some 1.
Proof.
  apply (run_keeps_existing_files Sample.Unmarshal Fixture.Open Fixture.Marshal
           Fixture.noFaults "plain.tgz" Fixture.usedDir).
  - intros name err H. discriminate H.
  - right. vm_compute. eexists; reflexivity.
Defined.

(** X16: when the extraction fails, [run] writes nothing and exits with
    status 1, with or without [--force]. *)
Theorem run_extraction_failure Unmarshal Open Marshal fl force filename w err :
  fst (getTarValues Unmarshal Open filename) = Err err ->
  files (fst (run Unmarshal Open Marshal fl force filename w)) = files w /\
  snd (run Unmarshal Open Marshal fl force filename w) = Some 1.
Proof.
  intros Hg. rewrite run_cases. unfold work, Err in *. rewrite Hg.
  destruct force; [split; reflexivity|].
  destruct (fileExists fl w) as [[|]|err']; split; reflexivity.
Qed.

Lemma run_extraction_failure_witness :
  files (fst (run Sample.Unmarshal Fixture.Open Fixture.Marshal Fixture.noFaults
                  true "cut.tgz" Fixture.usedDir)) = files Fixture.usedDir /\
  snd (run Sample.Unmarshal Fixture.Open Fixture.Marshal Fixture.noFaults
           true "cut.tgz" Fixture.usedDir) = Some 1.
Proof.
  apply (run_extraction_failure Sample.Unmarshal Fixture.Open Fixture.Marshal
           Fixture.noFaults true "cut.tgz" Fixture.usedDir Fixture.truncated).
  vm_compute; reflexivity.
Defined.

(** X17: what a run that returns has done.  When [run] returns (no exit),
    the extraction succeeded, apb.yml holds the encoding of the descriptor
    built from its result, Dockerfile holds the build recipe for the archive
    name given on the command line, and nothing was printed. *)
Theorem run_returns_postcondition Unmarshal Open Marshal fl force filename w w' :
  run Unmarshal Open Marshal fl force filename w = (w', None) ->
  exists v data,
    fst (getTarValues Unmarshal Open filename) = Ok v /\
    Marshal (NewSpec v) = Ok data /\
    files w' = <["Dockerfile" := dockerfileFor filename]>
                 (<["apb.yml" := data]> (files w)) /\
    stdout w' = stdout w.
Proof.
  rewrite run_cases.
  assert (Hw : work Unmarshal Open Marshal fl filename w = (w', None) ->
    exists v data,
      fst (getTarValues Unmarshal Open filename) = Ok v /\
      Marshal (NewSpec v) = Ok data /\
      files w' = <["Dockerfile" := dockerfileFor filename]>
                   (<["apb.yml" := data]> (files w)) /\
      stdout w' = stdout w).
  { unfold work.
    destruct (fst (getTarValues Unmarshal Open filename)) as [v|err] eqn:Hg;
      [|discriminate].
    rewrite writeApbYaml_cases.
    destruct (Marshal (NewSpec v)) as [data|err] eqn:Hm; [|discriminate].
    destruct (os.create fl apbYml) as [err|]; [discriminate|].
    destruct (os.write fl apbYml) as [err|]; [discriminate|].
    rewrite writeDockerfile_cases.
    destruct (os.create fl dockerfile) as [err|]; [discriminate|].
    destruct (os.write fl dockerfile) as [err|]; [discriminate|].
    intros [= <-]. exists v, data.
    rewrite (getTarValues_TarfileName _ _ _ _ Hg).
    repeat split; first [reflexivity | exact Hm]. }
  destruct force; [exact Hw|].
  destruct (fileExists fl w) as [[|]|err]; [discriminate | exact Hw | discriminate].
Qed.

Lemma run_returns_postcondition_witness :
  exists v data,
    fst (getTarValues Sample.Unmarshal Fixture.Open "plain.tgz") = Ok v /\
    Fixture.Marshal (NewSpec v) = Ok data /\
    files (withFile "Dockerfile" (dockerfileFor "plain.tgz")
             (withFile "apb.yml" ("name: foo-apb" +:+ LF) Fixture.usedDir))
    = <["Dockerfile" := dockerfileFor "plain.tgz"]>
        (<["apb.yml" := data]> (files Fixture.usedDir)) /\
    stdout (withFile "Dockerfile" (dockerfileFor "plain.tgz")
              (withFile "apb.yml" ("name: foo-apb" +:+ LF) Fixture.usedDir))
    = stdout Fixture.usedDir.
Proof.
  apply (run_returns_postcondition Sample.Unmarshal Fixture.Open Fixture.Marshal
           Fixture.noFaults true "plain.tgz" Fixture.usedDir).
  vm_compute; reflexivity.
Defined.

(** X18: the whole pipeline.  With [--force], or with neither output file
    there, a run on an archive whose extraction succeeds, with a descriptor
    that can be encoded and files that can be written, returns without
    printing, and leaves apb.yml with the encoding of the descriptor and
    Dockerfile with the build recipe for the archive name. *)
Theorem run_success Unmarshal Open Marshal fl force filename w v data :
  force = true \/ fileExists fl w = Ok false ->
  fst (getTarValues Unmarshal Open filename) = Ok v ->
  Marshal (NewSpec v) = Ok data ->
  os.create fl "apb.yml" = None -> os.write fl "apb.yml" = None ->
  os.create fl "Dockerfile" = None -> os.write fl "Dockerfile" = None ->
  run Unmarshal Open Marshal fl force filename w =
    (withFile "Dockerfile" (dockerfileFor filename) (withFile "apb.yml" data w),
     None).
Proof.
  intros Hf Hg Hm Hca Hwa Hcd Hwd. rewrite run_cases.
  assert (work Unmarshal Open Marshal fl filename w =
            (withFile "Dockerfile" (dockerfileFor filename)
               (withFile "apb.yml" data w), None)) as Hw.
  { unfold work. unfold Ok in Hg, Hm. rewrite Hg.
    rewrite writeApbYaml_cases. unfold apbYml. rewrite Hm, Hca, Hwa.
    rewrite writeDockerfile_cases. unfold dockerfile. rewrite Hcd, Hwd.
    rewrite (getTarValues_TarfileName _ _ _ _ Hg). reflexivity. }
  destruct force; [exact Hw|].
  destruct Hf as [Hf|Hf]; [discriminate|]. unfold Ok in Hf. rewrite Hf.
  exact Hw.
Qed.

Lemma run_success_witness :
  run Sample.Unmarshal Fixture.Open Fixture.Marshal Fixture.noFaults false
      "plain.tgz" Fixture.emptyDir =
    (withFile "Dockerfile" (dockerfileFor "plain.tgz")
       (withFile "apb.yml" ("name: foo-apb" +:+ LF) Fixture.emptyDir), None).
Proof.
  apply (run_success Sample.Unmarshal Fixture.Open Fixture.Marshal
           Fixture.noFaults false "plain.tgz" Fixture.emptyDir
           {| TarValues.Name := "foo"; TarValues.Description := "bar";
              TarValues.Icon := "http://x/icon.png";
              TarValues.TarfileName := "plain.tgz";
              TarValues.Values := Sample.valuesYaml |}).
  - right. vm_compute; reflexivity.
  - vm_compute; reflexivity.
  - vm_compute; reflexivity.
  - reflexivity.
  - reflexivity.
  - reflexivity.
  - reflexivity.
Defined.

(** X19: apb.yml is written first.  When writing it fails (the descriptor
    cannot be encoded, or the file cannot be created or written), the run
    exits with status 1 and the Dockerfile is what it was before. *)
Theorem run_apb_failure_keeps_dockerfile Unmarshal Open Marshal fl force
        filename w v err :
  fst (getTarValues Unmarshal Open filename) = Ok v ->
  fst (writeApbYaml Marshal fl v w) = Some err ->
  files (fst (run Unmarshal Open Marshal fl force filename w)) !! "Dockerfile"
  = files w !! "Dockerfile" /\
  snd (run Unmarshal Open Marshal fl force filename w) = Some 1.
Proof.
  intros Hg Ha. rewrite run_cases.
  assert (files (fst (work Unmarshal Open Marshal fl filename w)) !! "Dockerfile"
          = files w !! "Dockerfile" /\
          snd (work Unmarshal Open Marshal fl filename w) = Some 1) as Hw.
  { unfold work. unfold Ok in Hg. rewrite Hg.
    rewrite writeApbYaml_cases in Ha |- *.
    destruct (Marshal (NewSpec v)) as [data|e]; [|split; reflexivity].
    destruct (os.create fl apbYml) as [e|]; [split; reflexivity|].
    destruct (os.write fl apbYml) as [e|]; [|discriminate].
    split; [|reflexivity]. simpl.
    rewrite lookup_insert_ne by discriminate. reflexivity. }
  destruct force; [exact Hw|].
  destruct (fileExists fl w) as [[|]|e]; [split; reflexivity | exact Hw |
                                          split; reflexivity].
Qed.

Lemma run_apb_failure_keeps_dockerfile_witness :
  files (fst (run Sample.Unmarshal Fixture.Open Fixture.noMarshal
                  Fixture.noFaults true "plain.tgz" Fixture.usedDir))
    !! "Dockerfile" = files Fixture.usedDir !! "Dockerfile" /\
  snd (run Sample.Unmarshal Fixture.Open Fixture.noMarshal Fixture.noFaults
           true "plain.tgz" Fixture.usedDir) = Some 1.
Proof.
  apply (run_apb_failure_keeps_dockerfile Sample.Unmarshal Fixture.Open
           Fixture.noMarshal Fixture.noFaults true "plain.tgz" Fixture.usedDir
           {| TarValues.Name := "foo"; TarValues.Description := "bar";
              TarValues.Icon := "http://x/icon.png";
              TarValues.TarfileName := "plain.tgz";
              TarValues.Values := Sample.valuesYaml |}
           (libError "yaml" "cannot marshal"));
    vm_compute; reflexivity.
Defined.

(** X20: a failed write costs the old file.  With [--force], when apb.yml
    can be created but not written, the run exits with status 1 and leaves an
    empty apb.yml in the place of the one that was there; [os.Create] has cut
    it before the write failed. *)
Theorem forced_write_fault_truncates Unmarshal Open Marshal fl filename w v data err :
  fst (getTarValues Unmarshal Open filename) = Ok v ->
  Marshal (NewSpec v) = Ok data ->
  os.create fl "apb.yml" = None ->
  os.write fl "apb.yml" = Some err ->
  files (fst (run Unmarshal Open Marshal fl true filename w))
  = <["apb.yml" := ""]> (files w) /\
  snd (run Unmarshal Open Marshal fl true filename w) = Some 1.
Proof.
  intros Hg Hm Hc Hw. rewrite run_cases. unfold work.
  unfold Ok in Hg, Hm. rewrite Hg, writeApbYaml_cases. unfold apbYml.
  rewrite Hm, Hc, Hw. split; reflexivity.
Qed.

Lemma forced_write_fault_truncates_witness :
  files (fst (run Sample.Unmarshal Fixture.Open Fixture.Marshal
                  {| os.stat := fun _ => None; os.create := fun _ => None;
                     os.write := fun _ => Some Fixture.denied |}
                  true "plain.tgz"
                  (withFile "apb.yml" "name: old" Fixture.usedDir)))
  = <["apb.yml" := ""]> (files (withFile "apb.yml" "name: old" Fixture.usedDir)) /\
  snd (run Sample.Unmarshal Fixture.Open Fixture.Marshal
           {| os.stat := fun _ => None; os.create := fun _ => None;
              os.write := fun _ => Some Fixture.denied |}
           true "plain.tgz"
           (withFile "apb.yml" "name: old" Fixture.usedDir)) = Some 1.
Proof.
  apply (forced_write_fault_truncates Sample.Unmarshal Fixture.Open
           Fixture.Marshal _ "plain.tgz" _
           {| TarValues.Name := "foo"; TarValues.Description := "bar";
              TarValues.Icon := "http://x/icon.png";
              TarValues.TarfileName := "plain.tgz";
              TarValues.Values := Sample.valuesYaml |}
           ("name: foo-apb" +:+ LF) Fixture.denied);
    vm_compute; reflexivity.
Defined.
